(** * TechMeet: the rescheduling workflow of the booking backend

    A shallow embedding of the route handlers that create, list and resolve
    rescheduling requests:

    - [POST /reschedule]                    (routes/requestRescheduleRoute.ts)
    - [GET  /reschedule-requests/:ExpertId] (routes/ExpertRoutes.ts)
    - [POST /handle-Reschedule]             (routes/ExpertRoutes.ts)

    The MongoDB collections become finite maps keyed by document id (bookings,
    experts, dates, slots) and a list of documents (rescheduling requests:
    nothing in the routes keeps two requests for one booking apart, so order
    and duplicates matter).  A handler is a function from the database to a
    response and the database it leaves behind.  An identifier is a string;
    one that names a stored document is the canonical spelling of its
    ObjectId. *)

From stdpp Require Import gmap strings list fin_maps.

Open Scope string_scope.
Open Scope list_scope.

(** ** Documents *)

(** Modelled from the spec: the enum [Status] of models/BookingModel is not
    among the sources.  The spec's data model lists PENDING, CONFIRMED,
    RESCHEDULED and CANCELLED; the routes only ever write RESCHEDULED. *)
Inductive Status := PENDING | CONFIRMED | RESCHEDULED | CANCELLED.

(** A booking document without its [_id], which is its key in the store.
    [expertId] is the reference the admin list populates. *)
Record Booking := mkBooking {
  expertId : string;
  dateId : string;
  slotId : string;
  status : Status
}.

(** Modelled from the spec: the Mongoose models of a rescheduling request
    (models/requestReschedule for the submit route, models/RequestRescheduleModel
    for the expert routes) are not among the sources.  A document has the
    keys the routes read and write, each as the route spells it: the submit
    route writes the booking reference under [Current_Booking_id]; the expert
    routes filter, delete and populate by [CurrentBookingId]; the by-expert
    query filters on [expertId], which no route writes.  A key that a
    document does not have is [None].  The two models are taken to store
    into one collection, [requests]; a document keeps the keys under which
    it was written. *)
Module IReschedulingRequest.
Record t := mk {
  CurrentBookingId : option string;
  Current_Booking_id : option string;
  RequestedDateId : string;
  RequestedSlotId : string;
  expertId : option string
}.
End IReschedulingRequest.

Record IExpert := mkExpert {
  username : string;
  fullname : string;
  expertise : string
}.

Record DateDoc := mkDate {
  date : string;
  date_availability : string;
  date_expertId : string;
  slotsId : list string
}.

Record SlotDoc := mkSlot {
  slot_availability : string;
  timing : string;
  period : string;
  slot_expertId : string;
  planId : string
}.

(** ** The database *)

Record DB := mkDB {
  bookings : gmap string Booking;
  requests : list IReschedulingRequest.t;
  experts : gmap string IExpert;
  dates : gmap string DateDoc;
  slots : gmap string SlotDoc
}.

Definition set_bookings (f : gmap string Booking → gmap string Booking) (db : DB) : DB :=
  mkDB (f (bookings db)) (requests db) (experts db) (dates db) (slots db).

Definition set_requests
    (f : list IReschedulingRequest.t → list IReschedulingRequest.t) (db : DB) : DB :=
  mkDB (bookings db) (f (requests db)) (experts db) (dates db) (slots db).

(** ** Requests and responses *)

(** One issue of a ZodError: the path of the offending field. *)
Record ZodIssue := mkIssue { path : list string }.

(** An entry of the by-expert list: the three references populated (null when
    the referenced document is gone) and the expert's username. *)
Record FormattedRequest := mkFormatted {
  currentBookingId : option Booking;
  requestedDateId : option DateDoc;
  requestedSlotId : option SlotDoc;
  expertName : string
}.

Inductive Json :=
| JMessage (message : string)
| JMessageBooking (message : string) (booking_id : string) (booking : Booking)
| JMessageList (message : string) (list : list FormattedRequest)
| JMessageError (message : string) (error : string)
| JErrors (errors : list ZodIssue).

Record Response := mkResponse { res_status : nat; res_json : Json }.

(** The body of [POST /handle-Reschedule]. *)
Module HandleBody.
Record t := mk {
  CurrentBookingId : string;
  RequestedDateId : string;
  RequestedSlotId : string;
  action : string;
  newDate : string
}.
End HandleBody.

(** The body of [POST /reschedule]. *)
Module SubmitBody.
Record t := mk {
  Current_Booking_id : string;
  RequestedDateId : string;
  RequestedSlotId : string
}.
End SubmitBody.

(** ** Handlers: state, early return and exceptions *)

(** [CastError]: mongoose could not cast [value] to the ObjectId that the
    path [path] of a query holds. *)
Inductive Error :=
| ZodError (errors : list ZodIssue)
| OtherError (message : string)
| CastError (value : string) (path : string).

(** [error.message]; for a CastError the text of mongoose without its
    quotation marks and without the name of the model. *)
Definition Error_message (e : Error) : string :=
  match e with
  | ZodError _ => "ZodError"
  | OtherError message => message
  | CastError value path =>
    "Cast to ObjectId failed for value " +:+ value +:+ " at path " +:+ path
  end.

(** How a handler body stops before its end: [return res.status(..).json(..)]
    or a thrown error. *)
Inductive Abort :=
| Return (r : Response)
| Throw (e : Error).

Definition Handler (A : Type) : Type := DB → (Abort + A) * DB.

#[global] Instance Handler_ret : MRet Handler :=
  λ A (a : A) db, (inr a, db).

#[global] Instance Handler_bind : MBind Handler :=
  λ A B (k : A → Handler B) (m : Handler A) db,
    match m db with
    | (inl stop, db') => (inl stop, db')
    | (inr a, db') => k a db'
    end.

Definition reply {A} (code : nat) (json : Json) : Handler A :=
  λ db, (inl (Return (mkResponse code json)), db).

Definition throw {A} (e : Error) : Handler A :=
  λ db, (inl (Throw e), db).

Definition try_catch (body : Handler Response) (catch : Error → Response)
    (db : DB) : Response * DB :=
  match body db with
  | (inl (Return r), db') => (r, db')
  | (inl (Throw e), db') => (catch e, db')
  | (inr r, db') => (r, db')
  end.

(** ** The collections *)

(** A store call that may throw, as a step of a handler. *)
Definition attempt {A} (result : Error + A) : Handler A :=
  λ db,
    match result with
    | inl error => (inl (Throw error), db)
    | inr a => (inr a, db)
    end.

(** [Model.findById(id)] on a collection keyed by ObjectId.  Mongoose casts
    the id before it queries and throws a CastError when the id is no
    ObjectId.  The id of a stored document is an ObjectId, so an id that
    names a stored document casts; an id that names none gives null when it
    is well formed and the CastError when it is not.  [isValid] is
    [mongoose.Types.ObjectId.isValid]: a string casts exactly when it holds. *)
Definition castLookup {A} (isValid : string → bool) (collection : gmap string A)
    (id : string) : Error + option A :=
  match collection !! id with
  | Some document => inr (Some document)
  | None => if isValid id then inr None else inl (CastError id "_id")
  end.

Module BookingSchema.
Definition findById (isValid : string → bool) (id : string) : Handler (option Booking) :=
  λ db, attempt (castLookup isValid (bookings db) id) db.

(** [booking.save()] of a document loaded by [findById id]. *)
Definition save (id : string) (booking : Booking) : Handler unit :=
  λ db, (inr (), set_bookings <[id := booking]> db).
End BookingSchema.

Module Expert.
Definition findById (isValid : string → bool) (id : string) : Handler (option IExpert) :=
  λ db, attempt (castLookup isValid (experts db) id) db.
End Expert.

Module ReschedulingRequest.
Import IReschedulingRequest.

Definition forBooking (id : string) (r : t) : bool :=
  match CurrentBookingId r with
  | Some b => String.eqb b id
  | None => false
  end.

(** A request that names the booking under either of the two keys. *)
Definition refersTo (id : string) (r : t) : bool :=
  forBooking id r
  || match Current_Booking_id r with
     | Some b => String.eqb b id
     | None => false
     end.

Definition forExpert (id : string) (r : t) : bool :=
  match expertId r with
  | Some e => String.eqb e id
  | None => false
  end.

(** What [deleteOne] does to the collection: the first document that
    matches the filter goes, the others stay. *)
Fixpoint removeFirst (f : t → bool) (l : list t) : list t :=
  match l with
  | [] => []
  | r :: l' => if f r then l' else r :: removeFirst f l'
  end.

(** [newReschedulingRequest.save()] *)
Definition save (r : t) : Handler unit :=
  λ db, (inr (), set_requests (λ l, l ++ [r]) db).

(** [deleteOne({ CurrentBookingId: id })], for the id of a booking that
    [findById] has found (it casts). *)
Definition deleteOne (id : string) : Handler unit :=
  λ db, (inr (), set_requests (removeFirst (forBooking id)) db).

(** [find({ expertId: id })], for the id of an expert that [findById] has
    found (it casts). *)
Definition find_expertId (id : string) : Handler (list t) :=
  λ db, (inr (List.filter (forExpert id) (requests db)), db).

(** The requests that the decide route finds for a booking: those whose
    [CurrentBookingId] is the booking. *)
Definition pending (id : string) (db : DB) : list t :=
  List.filter (forBooking id) (requests db).

(** The requests that reference a booking, whichever key holds it. *)
Definition referring (id : string) (db : DB) : list t :=
  List.filter (refersTo id) (requests db).
End ReschedulingRequest.

(** A request after [.populate("CurrentBookingId").populate("RequestedDateId")
    .populate("RequestedSlotId")]: each reference is replaced by the document
    it names, or by null when that document is gone. *)
Module Populated.
Record t := mk {
  CurrentBookingId : option Booking;
  RequestedDateId : option DateDoc;
  RequestedSlotId : option SlotDoc
}.
End Populated.

Definition populate (db : DB) (request : IReschedulingRequest.t) : Populated.t :=
  Populated.mk
    (IReschedulingRequest.CurrentBookingId request ≫= (bookings db !!.))
    (dates db !! IReschedulingRequest.RequestedDateId request)
    (slots db !! IReschedulingRequest.RequestedSlotId request).

(** [ReschedulingRequest.find({ expertId: id }).populate(..).populate(..).populate(..)] *)
Definition find_expertId_populated (id : string) : Handler (list Populated.t) :=
  λ db,
    match ReschedulingRequest.find_expertId id db with
    | (inr found, db') => (inr (map (populate db') found), db')
    | (inl stop, db') => (inl stop, db')
    end.

(** One entry of [formattedRequests] in the by-expert route. *)
Definition format (expert : IExpert) (request : Populated.t) : FormattedRequest :=
  {| currentBookingId := Populated.CurrentBookingId request;
     requestedDateId := Populated.RequestedDateId request;
     requestedSlotId := Populated.RequestedSlotId request;
     expertName := username expert |}.

(** The entry the by-expert list shows for a stored request. *)
Definition formatRequest (db : DB) (expert : IExpert) (request : IReschedulingRequest.t)
    : FormattedRequest :=
  format expert (populate db request).

Section Routes.

(** [mongoose.Types.ObjectId.isValid]: which strings are well-formed
    identifiers is the library's business. *)
Variable isValid : string → bool.

(** Modelled from the spec: [reschedulingRequestSchemaZod]
    (schemas/requestReschedule) is not among the sources.  By the spec a
    submission "fails with ValidationError if any ID is malformed"; the
    issues name the malformed fields. *)
Definition schemaIssues (body : SubmitBody.t) : list ZodIssue :=
  (if isValid (SubmitBody.Current_Booking_id body) then []
   else [mkIssue ["Current_Booking_id"]]) ++
  (if isValid (SubmitBody.RequestedDateId body) then []
   else [mkIssue ["RequestedDateId"]]) ++
  (if isValid (SubmitBody.RequestedSlotId body) then []
   else [mkIssue ["RequestedSlotId"]]).

Definition reschedulingRequestSchemaZod_parse (body : SubmitBody.t)
    : Handler SubmitBody.t :=
  match schemaIssues body with
  | [] => mret body
  | errors => throw (ZodError errors)
  end.

(** [router.post('/reschedule', ...)] *)
Definition postReschedule (body : SubmitBody.t) : DB → Response * DB :=
  try_catch
    (validatedData ← reschedulingRequestSchemaZod_parse body;
     let newReschedulingRequest :=
       IReschedulingRequest.mk
         None
         (Some (SubmitBody.Current_Booking_id validatedData))
         (SubmitBody.RequestedDateId validatedData)
         (SubmitBody.RequestedSlotId validatedData)
         None in
     _ ← ReschedulingRequest.save newReschedulingRequest;
     reply 201 (JMessage "Rescheduling request created successfully"))
    (λ error,
       match error with
       | ZodError errors => mkResponse 400 (JErrors errors)
       | _ =>
         mkResponse 500 (JMessageError "Internal server error" (Error_message error))
       end).

(** [router.get("/reschedule-requests/:ExpertId", ...)] *)
Definition getRescheduleRequestsByExpert (ExpertId : string) : DB → Response * DB :=
  try_catch
    (expert ← Expert.findById isValid ExpertId;
     match expert with
     | None => reply 404 (JMessage "Expert not found")
     | Some expert =>
       found ← find_expertId_populated ExpertId;
       if Nat.eqb (length found) 0 then
         reply 404 (JMessage "No reschedule requests found for this expert")
       else
         let formattedRequests := map (format expert) found in
         reply 200 (JMessageList "Rescheduling requests retrieved successfully"
                      formattedRequests)
     end)
    (λ error,
       mkResponse 500 (JMessageError "Internal server error" (Error_message error))).

(** [router.post("/handle-Reschedule", ...)] *)
Definition handleReschedule (body : HandleBody.t) : DB → Response * DB :=
  let CurrentBookingId := HandleBody.CurrentBookingId body in
  let RequestedDateId := HandleBody.RequestedDateId body in
  let RequestedSlotId := HandleBody.RequestedSlotId body in
  let action := HandleBody.action body in
  try_catch
    (booking ← BookingSchema.findById isValid CurrentBookingId;
     match booking with
     | None => reply 404 (JMessage "Booking not found")
     | Some booking =>
       if String.eqb action "accepted" then
         if negb (isValid RequestedDateId) || negb (isValid RequestedSlotId) then
           reply 400 (JMessage "Invalid date or slot ID")
         else
           let booking :=
             mkBooking (expertId booking) RequestedDateId RequestedSlotId RESCHEDULED in
           _ ← BookingSchema.save CurrentBookingId booking;
           _ ← ReschedulingRequest.deleteOne CurrentBookingId;
           reply 200 (JMessageBooking "Reschedule request accepted successfully"
                        CurrentBookingId booking)
       else if String.eqb action "rejected" then
         _ ← ReschedulingRequest.deleteOne CurrentBookingId;
         reply 200 (JMessage "Reschedule request rejected successfully")
       else
         reply 400 (JMessage "Invalid action")
     end)
    (λ error,
       mkResponse 500 (JMessageError "Internal server error" (Error_message error))).

End Routes.

(** ** Sample data

    One reading of the library's identifier check, and a small database, on
    which the handlers are run. *)

Definition isHexDigit (c : Ascii.ascii) : bool :=
  let n := Ascii.nat_of_ascii c in
  (Nat.leb 48 n && Nat.leb n 57) || (Nat.leb 97 n && Nat.leb n 102)
  || (Nat.leb 65 n && Nat.leb n 70).

(** A 24-character hexadecimal string. *)
Definition hexObjectId (s : string) : bool :=
  Nat.eqb (String.length s) 24 && forallb isHexDigit (String.list_ascii_of_string s).

Definition B1 : string := "64f0000000000000000000b1".
Definition B2 : string := "64f0000000000000000000b2".
Definition D1 : string := "64f0000000000000000000d1".
Definition D2 : string := "64f0000000000000000000d2".
Definition S1 : string := "64f0000000000000000000a1".
Definition S5 : string := "64f0000000000000000000a5".
Definition S9 : string := "64f0000000000000000000a9".
Definition E1 : string := "64f0000000000000000000e1".
Definition E2 : string := "64f0000000000000000000e2".
Definition E3 : string := "64f0000000000000000000e3".

Definition booking1 : Booking := mkBooking E1 D1 S1 CONFIRMED.
Definition expert1 : IExpert := mkExpert "asha" "Asha Rao" "tax".
Definition expert2 : IExpert := mkExpert "binod" "Binod K" "law".

(** A request as the decide route finds it: [CurrentBookingId] names the
    booking. *)
Definition request_B1_D2_S5 : IReschedulingRequest.t :=
  IReschedulingRequest.mk (Some B1) None D2 S5 None.

(** A request as [POST /reschedule] stores it. *)
Definition submitted_B1_D2_S5 : IReschedulingRequest.t :=
  IReschedulingRequest.mk None (Some B1) D2 S5 None.

(** A request that carries an [expertId] of its own. *)
Definition request_B1_for_E1 : IReschedulingRequest.t :=
  IReschedulingRequest.mk (Some B1) None D2 S5 (Some E1).

Definition db_empty : DB := mkDB ∅ [] ∅ ∅ ∅.

(** Booking [B1] of expert [E1], no request. *)
Definition db_booked : DB :=
  mkDB {[ B1 := booking1 ]} [] (<[ E1 := expert1 ]> {[ E2 := expert2 ]}) ∅ ∅.

(** Booking [B1] with one pending request for date [D2], slot [S5]. *)
Definition db_pending : DB := set_requests (λ _, [request_B1_D2_S5]) db_booked.

(** Booking [B1] with one request filed under expert [E1] and one without. *)
Definition db_tagged : DB :=
  set_requests (λ _, [request_B1_for_E1; request_B1_D2_S5]) db_booked.

Definition submit_B1_D2_S5 : SubmitBody.t := SubmitBody.mk B1 D2 S5.
Definition submit_B2_D2_S5 : SubmitBody.t := SubmitBody.mk B2 D2 S5.

Definition decision (id d s action : string) : HandleBody.t :=
  HandleBody.mk id d s action "".

(** * The other routes

    The remaining routes of routes/ExpertRoutes.ts (the expert by id, the
    plain request list, the dates of an expert, the calendar of a plan, the
    deletion of a date) and the signup and login of routes/AdminRoutes.ts.
    A lookup by an id that is no ObjectId throws, and the catch block of the
    route answers. *)

Definition set_experts (f : gmap string IExpert → gmap string IExpert) (db : DB) : DB :=
  mkDB (bookings db) (requests db) (f (experts db)) (dates db) (slots db).

Definition set_dates (f : gmap string DateDoc → gmap string DateDoc) (db : DB) : DB :=
  mkDB (bookings db) (requests db) (experts db) (f (dates db)) (slots db).

(** A plan, with the fields the calendar route copies into its answer. *)
Record Plan := mkPlan {
  plan_name : string;
  channel : string;
  duration : nat;
  price : string;
  bookingType : string;
  plan_expertId : string;
  isDedicated : bool
}.

(** The body of [PUT /expert/:id] after [ExpertSchemaZod.partial()]: every
    field may be absent. *)
Module ExpertPatch.
Record t := mk {
  username : option string;
  fullname : option string;
  expertise : option string
}.
End ExpertPatch.

(** The update [findByIdAndUpdate] applies: the fields present are set. *)
Definition applyPatch (patch : ExpertPatch.t) (expert : IExpert) : IExpert :=
  mkExpert (default (username expert) (ExpertPatch.username patch))
    (default (fullname expert) (ExpertPatch.fullname patch))
    (default (expertise expert) (ExpertPatch.expertise patch)).

Module CalendarSlot.
Record t := mk {
  id : string;
  availability : string;
  timing : string;
  period : string;
  expertId : string;
  planId : string
}.
End CalendarSlot.

Module CalendarDate.
Record t := mk {
  id : string;
  date : string;
  availability : string;
  slots : list CalendarSlot.t
}.
End CalendarDate.

Module CalendarExpert.
Record t := mk {
  id : string;
  fullname : string;
  expertise : string
}.
End CalendarExpert.

Inductive Body :=
| BExpert (_id : string) (expert : IExpert)
| BError (error : string)
| BErrors (errors : list ZodIssue)
| BNoContent
| BMessage (message : string)
| BRequests (message : string) (list : list IReschedulingRequest.t)
| BDates (dateEntry : list (string * DateDoc))
| BCalendar (plan_id : string) (plan : Plan) (expert : CalendarExpert.t)
    (dates : list CalendarDate.t)
| BServerError (message : string) (error : string).

Record Reply := mkReply { reply_status : nat; reply_body : Body }.

(** In JavaScript an array is truthy, the empty one too. *)
Definition truthy_array {A} (l : list A) : bool := true.

(** [stored] lists the ids of a collection's documents, each once: the
    order in which the collection holds them. *)
Definition enumerates {A} (stored : list string) (collection : gmap string A) : Prop :=
  NoDup stored ∧ ∀ id, id ∈ stored ↔ is_Some (collection !! id).

Module DateModel.
(** [DateModel.find({ expertId })] for an [expertId] that casts: the dates of
    the expert, each with its id, in the order [stored] in which the
    collection holds its documents. *)
Definition find_expertId (stored : list string) (expertid : string) (db : DB)
    : list (string * DateDoc) :=
  omap (λ id,
          match dates db !! id with
          | Some dateEntry =>
            if String.eqb (date_expertId dateEntry) expertid
            then Some (id, dateEntry) else None
          | None => None
          end)
    stored.

(** The same for an [expertId] that comes from the request: mongoose casts
    it first and throws a CastError when it is no ObjectId. *)
Definition find_expertId_cast (isValid : string → bool) (stored : list string)
    (expertid : string) (db : DB) : Error + list (string * DateDoc) :=
  if isValid expertid then inr (find_expertId stored expertid db)
  else inl (CastError expertid "expertId").
End DateModel.

(** [date.populate("slotsId")] and the copy of each slot into the answer:
    the slots are taken in the order of [slotsId], and an id that names no
    stored slot gives no entry. *)
Definition calendarSlots (db : DB) (slotsId : list string) : list CalendarSlot.t :=
  omap (λ id,
          (λ slot, CalendarSlot.mk id (slot_availability slot) (timing slot)
                     (period slot) (slot_expertId slot) (planId slot))
          <$> slots db !! id)
    slotsId.

Definition calendarDate (db : DB) (entry : string * DateDoc) : CalendarDate.t :=
  CalendarDate.mk entry.1 (date entry.2) (date_availability entry.2)
    (calendarSlots db (slotsId entry.2)).

Section OtherRoutes.

(** [mongoose.Types.ObjectId.isValid], as in the rescheduling routes. *)
Variable isValid : string → bool.

(** [ExpertSchemaZod.partial().parse]: the schema is not among the sources;
    it answers with its issues or with the parsed data. *)
Variable ExpertSchemaZod_partial_parse : ExpertPatch.t → list ZodIssue + ExpertPatch.t.

(** [router.get("/expert/:id", ...)] *)
Definition getExpert (id : string) (db : DB) : Reply * DB :=
  match castLookup isValid (experts db) id with
  | inr None => (mkReply 404 (BError "Expert not found"), db)
  | inr (Some expert) => (mkReply 200 (BExpert id expert), db)
  | inl error => (mkReply 500 (BError (Error_message error)), db)
  end.

(** [router.put("/expert/:id", ...)]; its catch block answers 400 to every
    error. *)
Definition putExpert (id : string) (body : ExpertPatch.t) (db : DB) : Reply * DB :=
  match ExpertSchemaZod_partial_parse body with
  | inl errors => (mkReply 400 (BErrors errors), db)
  | inr parsedData =>
    match castLookup isValid (experts db) id with
    | inr None => (mkReply 404 (BError "Expert not found"), db)
    | inr (Some expert) =>
      let expert := applyPatch parsedData expert in
      (mkReply 200 (BExpert id expert), set_experts <[id := expert]> db)
    | inl error => (mkReply 400 (BError (Error_message error)), db)
    end
  end.

(** [router.delete("/expert/:id", ...)] *)
Definition deleteExpert (id : string) (db : DB) : Reply * DB :=
  match castLookup isValid (experts db) id with
  | inr None => (mkReply 404 (BError "Expert not found"), db)
  | inr (Some expert) => (mkReply 204 BNoContent, set_experts (delete id) db)
  | inl error => (mkReply 500 (BError (Error_message error)), db)
  end.

(** [router.get("/reschedule-request", ...)]: the formatted list is built
    and the stored documents are sent. *)
Definition getRescheduleRequest (db : DB) : Reply * DB :=
  let requests := requests db in
  let formattedRequests :=
    map (λ request,
           (IReschedulingRequest.CurrentBookingId request,
            IReschedulingRequest.RequestedDateId request,
            IReschedulingRequest.RequestedSlotId request))
      requests in
  (mkReply 200 (BRequests "Rescheduling requests retrieved successfully" requests), db).

(** [router.get("/date/:expertid", ...)]; [stored] is the order in which the
    dates are held. *)
Definition getDatesByExpert (stored : list string) (expertid : string) (db : DB)
    : Reply * DB :=
  match DateModel.find_expertId_cast isValid stored expertid db with
  | inr dateEntry =>
    if negb (truthy_array dateEntry) then
      (mkReply 404 (BError "Date entry not found"), db)
    else
      (mkReply 200 (BDates dateEntry), db)
  | inl error => (mkReply 500 (BError (Error_message error)), db)
  end.

(** [router.delete("/:date_Id", ...)] *)
Definition deleteDate (date_Id : string) (db : DB) : Reply * DB :=
  match castLookup isValid (dates db) date_Id with
  | inr None => (mkReply 404 (BError "Date entry not found"), db)
  | inr (Some dateEntry) => (mkReply 204 BNoContent, set_dates (delete date_Id) db)
  | inl error => (mkReply 500 (BError (Error_message error)), db)
  end.

(** [router.post("/calendar", ...)]; the plans are a collection of their own
    and [stored] is the order in which the dates are held.  [plan.expertId]
    is the ObjectId a stored plan holds: the two queries by it cast. *)
Definition postCalendar (plans : gmap string Plan) (stored : list string)
    (plan_id : string) (db : DB) : Reply * DB :=
  match castLookup isValid plans plan_id with
  | inr None => (mkReply 404 (BMessage "Plan not found"), db)
  | inr (Some plan) =>
    match experts db !! plan_expertId plan with
    | None => (mkReply 404 (BMessage "Expert not found"), db)
    | Some expert =>
      let dates := DateModel.find_expertId stored (plan_expertId plan) db in
      let responseDates := map (calendarDate db) dates in
      (mkReply 200
         (BCalendar plan_id plan
            (CalendarExpert.mk (plan_expertId plan) (fullname expert) (expertise expert))
            responseDates),
       db)
    end
  | inl error => (mkReply 500 (BServerError "Server error" (Error_message error)), db)
  end.

(** ** The routes as one server

    A call to one of the routes that work on the database, and the state a
    sequence of calls leaves. *)
Inductive Call :=
| POST_reschedule (body : SubmitBody.t)
| POST_handle_Reschedule (body : HandleBody.t)
| GET_reschedule_requests_ExpertId (ExpertId : string)
| GET_reschedule_request
| GET_expert (id : string)
| PUT_expert (id : string) (body : ExpertPatch.t)
| DELETE_expert (id : string)
| GET_date_expertid (expertid : string)
| DELETE_date (date_Id : string).

(** The order in which a state of the database holds its dates. *)
Variable dates_order : DB → list string.

Definition serve (call : Call) (db : DB) : DB :=
  match call with
  | POST_reschedule body => (postReschedule isValid body db).2
  | POST_handle_Reschedule body => (handleReschedule isValid body db).2
  | GET_reschedule_requests_ExpertId ExpertId =>
    (getRescheduleRequestsByExpert isValid ExpertId db).2
  | GET_reschedule_request => (getRescheduleRequest db).2
  | GET_expert id => (getExpert id db).2
  | PUT_expert id body => (putExpert id body db).2
  | DELETE_expert id => (deleteExpert id db).2
  | GET_date_expertid expertid => (getDatesByExpert (dates_order db) expertid db).2
  | DELETE_date date_Id => (deleteDate date_Id db).2
  end.

Definition serveAll (calls : list Call) (db : DB) : DB :=
  foldl (λ db call, serve call db) db calls.

End OtherRoutes.

(** The bookings after some calls: each was there before, with the same expert,
    and is either as it was or rescheduled. *)
Definition evolved (before after : gmap string Booking) : Prop :=
  dom after = dom before
  ∧ ∀ id bk', after !! id = Some bk' →
      ∃ bk, before !! id = Some bk
            ∧ expertId bk' = expertId bk
            ∧ (bk' = bk ∨ status bk' = RESCHEDULED).

(** ** Admin signup and login (routes/AdminRoutes.ts)

    The admins are a collection of their own: a list of documents, each with
    its [_id], in the order of their creation.  A character of a string
    stands for one UTF-16 code unit, so that [String.length] is the length
    Zod compares. *)
Module AdminRoutes.

Record IAdmin := mkAdmin {
  name : string;
  email : string;
  password : string
}.

Module SignupBody.
Record t := mk { name : string; email : string; password : string }.
End SignupBody.

Module LoginBody.
Record t := mk { email : string; password : string }.
End LoginBody.

(** An issue of a ZodError, with the message the schema gives it. *)
Record Issue := mkIssue { path : list string; message : string }.

Inductive Body :=
| Created (message : string) (_id : string) (admin : IAdmin)
| Token (message : string) (token : string)
| Message (message : string)
| ZodMessage (issues : list Issue).

Record Reply := mkReply { status : nat; body : Body }.

(** [AdminSchema.findOne({ email })]: the first admin with that email. *)
Fixpoint findOne_email (e : string) (admins : list (string * IAdmin))
    : option (string * IAdmin) :=
  match admins with
  | [] => None
  | admin :: admins' =>
    if String.eqb (email admin.2) e then Some admin else findOne_email e admins'
  end.

Section Routes.

(** Zod's [.email()] check, [bcrypt.hash] (password, rounds, and the salt it
    draws), [bcrypt.compare] and [jwt.sign] (payload id, secret, expiry) are
    the libraries'. *)
Variable isEmail : string → bool.
Variable bcrypt_hash : string → nat → string → string.
Variable bcrypt_compare : string → string → bool.
Variable jwt_sign : string → string → string → string.

(** [process.env.JWT_SECRET], taken to be set. *)
Variable JWT_SECRET : string.

(** [SignupSchemaZod] *)
Definition SignupSchemaZod (b : SignupBody.t) : list Issue :=
  (if Nat.leb 2 (String.length (SignupBody.name b)) then []
   else [mkIssue ["name"] "Name must be at least 2 characters long"]) ++
  (if isEmail (SignupBody.email b) then []
   else [mkIssue ["email"] "Invalid email address"]) ++
  (if Nat.leb 6 (String.length (SignupBody.password b)) then []
   else [mkIssue ["password"] "Password must be at least 6 characters long"]).

(** [LoginSchemaZod] *)
Definition LoginSchemaZod (b : LoginBody.t) : list Issue :=
  (if isEmail (LoginBody.email b) then []
   else [mkIssue ["email"] "Invalid email address"]) ++
  (if Nat.leb 6 (String.length (LoginBody.password b)) then []
   else [mkIssue ["password"] "Password must be at least 6 characters long"]).

(** [router.post("/signup", ...)]; [_id] is the id the new document gets and
    [salt] the salt [bcrypt.hash] draws.  A ZodError is an [Error], so the
    catch block answers 400 with its message. *)
Definition signup (_id salt : string) (b : SignupBody.t)
    (admins : list (string * IAdmin)) : Reply * list (string * IAdmin) :=
  match SignupSchemaZod b with
  | [] =>
    match findOne_email (SignupBody.email b) admins with
    | Some adminExists => (mkReply 400 (Message "Admin already exists"), admins)
    | None =>
      let hashedPassword := bcrypt_hash (SignupBody.password b) 10 salt in
      let admin := mkAdmin (SignupBody.name b) (SignupBody.email b) hashedPassword in
      (mkReply 201 (Created "Admin created successfully" _id admin),
       admins ++ [(_id, admin)])
    end
  | issues => (mkReply 400 (ZodMessage issues), admins)
  end.

(** [router.post("/login", ...)] *)
Definition login (b : LoginBody.t) (admins : list (string * IAdmin))
    : Reply * list (string * IAdmin) :=
  match LoginSchemaZod b with
  | [] =>
    match findOne_email (LoginBody.email b) admins with
    | None => (mkReply 400 (Message "Invalid email or password"), admins)
    | Some admin =>
      if bcrypt_compare (LoginBody.password b) (password admin.2) then
        (mkReply 200 (Token "Login successful" (jwt_sign admin.1 JWT_SECRET "1h")),
         admins)
      else
        (mkReply 400 (Message "Invalid email or password"), admins)
    end
  | issues => (mkReply 400 (ZodMessage issues), admins)
  end.

End Routes.
End AdminRoutes.

(** ** More sample data *)

Definition date1 : DateDoc := mkDate "01/03/2025" "available" E1 [S1; S9; S5].
Definition date2 : DateDoc := mkDate "02/03/2025" "booked" E2 [].
Definition P1 : string := "64f0000000000000000000c1".
Definition P2 : string := "64f0000000000000000000c2".
Definition slot1 : SlotDoc := mkSlot "available" "10:00" "AM" E1 P1.
Definition slot5 : SlotDoc := mkSlot "booked" "04:00" "PM" E1 P2.
Definition plan_a : Plan := mkPlan "Intro call" "video" 30 "20" "appointment" E1 false.

(** Expert [E1] with a date [D1] holding slot ids [S1], [S9] (no such slot)
    and [S5]; one request under [E1] asks for date [D1]. *)
Definition db_calendar : DB :=
  mkDB {[ B1 := booking1 ]} [IReschedulingRequest.mk (Some B1) None D1 S1 (Some E1)]
    (<[ E1 := expert1 ]> {[ E2 := expert2 ]})
    (<[ D1 := date1 ]> {[ D2 := date2 ]})
    (<[ S1 := slot1 ]> {[ S5 := slot5 ]}).

Definition plans_sample : gmap string Plan := {[ P1 := plan_a ]}.

Definition sample_isEmail (s : string) : bool :=
  existsb (λ c, Nat.eqb (Ascii.nat_of_ascii c) 64) (String.list_ascii_of_string s).

(** A stand-in for bcrypt: the salt, a dollar sign and the password. *)
Definition sample_hash (password : string) (rounds : nat) (salt : string) : string :=
  salt +:+ "$" +:+ password.

Definition sample_compare (password hashed : string) : bool :=
  let n := String.length password in
  String.eqb (String.substring (String.length hashed - n) n hashed) password
  && Nat.ltb n (String.length hashed).

Definition sample_sign (id secret expiresIn : string) : string :=
  "jwt." +:+ id.

Definition signup_asha : AdminRoutes.SignupBody.t :=
  AdminRoutes.SignupBody.mk "Asha" "asha@techmeet.io" "s3cret!".

Definition login_asha : AdminRoutes.LoginBody.t :=
  AdminRoutes.LoginBody.mk "asha@techmeet.io" "s3cret!".

(** Runs a handler body: the monad and the collection operations unfold. *)
Ltac run_handler :=
  unfold try_catch, mbind, mret, Handler_bind, Handler_ret, reply, throw,
    BookingSchema.findById, BookingSchema.save, Expert.findById, attempt, castLookup,
    ReschedulingRequest.save, ReschedulingRequest.deleteOne,
    ReschedulingRequest.find_expertId, find_expertId_populated; simpl.

(** Closes a case that the branch taken rules out. *)
Ltac other_branch :=
  intros; repeat match goal with H : _ ∨ _ |- _ => destruct H end; congruence.

(** * Properties *)

(** ** The request collection *)

Section RequestLists.
Import IReschedulingRequest ReschedulingRequest.

Implicit Types (l : list t) (r : t) (f : t → bool) (id : string).

Lemma forBooking_true id r : forBooking id r = true ↔ CurrentBookingId r = Some id.
Proof.
  unfold forBooking. destruct (CurrentBookingId r) as [b|]; [|split; discriminate].
  rewrite String.eqb_eq. split; congruence.
Qed.

Lemma forBooking_false id r : forBooking id r = false ↔ CurrentBookingId r ≠ Some id.
Proof.
  rewrite <- forBooking_true. destruct (forBooking id r); split; congruence.
Qed.

Lemma forExpert_true id r : forExpert id r = true ↔ expertId r = Some id.
Proof.
  unfold forExpert. destruct (expertId r) as [e|]; [|split; discriminate].
  rewrite String.eqb_eq. split; congruence.
Qed.

(** Deleting one match from a collection without any changes nothing. *)
Lemma removeFirst_no_match f l : List.filter f l = [] → removeFirst f l = l.
Proof.
  induction l as [|r l IH]; simpl; [done|].
  destruct (f r); [discriminate|]. intros H. by rewrite IH.
Qed.



(** A request saved when none matched is the one [deleteOne] takes. *)
Lemma removeFirst_app_new f l r :
  List.filter f l = [] → f r = true → removeFirst f (l ++ [r]) = l.
Proof.
  intros Hl Hr. induction l as [|r' l IH]; simpl in *.
  - by rewrite Hr.
  - destruct (f r'); [discriminate|]. by rewrite IH.
Qed.

Lemma length_removeFirst f l :
  List.filter f l ≠ [] → S (length (removeFirst f l)) = length l.
Proof.
  induction l as [|r l IH]; simpl; [done|].
  destruct (f r); simpl; [done|]. intros H. by rewrite IH.
Qed.
End RequestLists.

(** ** What each handler answers, branch by branch *)

Section HandlerEquations.
Variable isValid : string → bool.

Implicit Types (db : DB) (body : HandleBody.t).

Lemma handleReschedule_missing db body :
  bookings db !! HandleBody.CurrentBookingId body = None →
  isValid (HandleBody.CurrentBookingId body) = true →
  handleReschedule isValid body db =
    (mkResponse 404 (JMessage "Booking not found"), db).
Proof. intros H Hv. unfold handleReschedule. run_handler. by rewrite H, Hv. Qed.

Lemma handleReschedule_malformed db body :
  bookings db !! HandleBody.CurrentBookingId body = None →
  isValid (HandleBody.CurrentBookingId body) = false →
  handleReschedule isValid body db =
    (mkResponse 500
       (JMessageError "Internal server error"
          (Error_message (CastError (HandleBody.CurrentBookingId body) "_id"))), db).
Proof. intros H Hv. unfold handleReschedule. run_handler. by rewrite H, Hv. Qed.

Lemma handleReschedule_accepted db body bk :
  bookings db !! HandleBody.CurrentBookingId body = Some bk →
  HandleBody.action body = "accepted" →
  isValid (HandleBody.RequestedDateId body) = true →
  isValid (HandleBody.RequestedSlotId body) = true →
  let id := HandleBody.CurrentBookingId body in
  let bk' := mkBooking (expertId bk) (HandleBody.RequestedDateId body)
               (HandleBody.RequestedSlotId body) RESCHEDULED in
  handleReschedule isValid body db =
    (mkResponse 200
       (JMessageBooking "Reschedule request accepted successfully" id bk'),
     set_requests (ReschedulingRequest.removeFirst (ReschedulingRequest.forBooking id))
       (set_bookings <[id := bk']> db)).
Proof.
  intros H Ha Hd Hs. unfold handleReschedule. run_handler.
  by rewrite H, Ha, Hd, Hs.
Qed.

Lemma handleReschedule_accepted_invalid db body bk :
  bookings db !! HandleBody.CurrentBookingId body = Some bk →
  HandleBody.action body = "accepted" →
  isValid (HandleBody.RequestedDateId body) = false
    ∨ isValid (HandleBody.RequestedSlotId body) = false →
  handleReschedule isValid body db =
    (mkResponse 400 (JMessage "Invalid date or slot ID"), db).
Proof.
  intros H Ha Hds. unfold handleReschedule. run_handler. rewrite H, Ha. simpl.
  destruct Hds as [-> | ->]; simpl; [done|].
  by rewrite orb_true_r.
Qed.

Lemma handleReschedule_rejected db body bk :
  bookings db !! HandleBody.CurrentBookingId body = Some bk →
  HandleBody.action body = "rejected" →
  handleReschedule isValid body db =
    (mkResponse 200 (JMessage "Reschedule request rejected successfully"),
     set_requests
       (ReschedulingRequest.removeFirst
          (ReschedulingRequest.forBooking (HandleBody.CurrentBookingId body))) db).
Proof.
  intros H Ha. unfold handleReschedule. run_handler. by rewrite H, Ha.
Qed.

Lemma handleReschedule_other_action db body bk :
  bookings db !! HandleBody.CurrentBookingId body = Some bk →
  HandleBody.action body ≠ "accepted" →
  HandleBody.action body ≠ "rejected" →
  handleReschedule isValid body db =
    (mkResponse 400 (JMessage "Invalid action"), db).
Proof.
  intros H Ha Hr. unfold handleReschedule. run_handler. rewrite H.
  apply String.eqb_neq in Ha, Hr. by rewrite Ha, Hr.
Qed.

Lemma postReschedule_valid db (body : SubmitBody.t) :
  schemaIssues isValid body = [] →
  postReschedule isValid body db =
    (mkResponse 201 (JMessage "Rescheduling request created successfully"),
     set_requests
       (λ l, l ++ [IReschedulingRequest.mk None
                    (Some (SubmitBody.Current_Booking_id body))
                    (SubmitBody.RequestedDateId body)
                    (SubmitBody.RequestedSlotId body) None]) db).
Proof.
  intros H. unfold postReschedule, reschedulingRequestSchemaZod_parse.
  rewrite H. by run_handler.
Qed.

Lemma postReschedule_invalid db (body : SubmitBody.t) :
  schemaIssues isValid body ≠ [] →
  postReschedule isValid body db =
    (mkResponse 400 (JErrors (schemaIssues isValid body)), db).
Proof.
  intros H. unfold postReschedule, reschedulingRequestSchemaZod_parse.
  destruct (schemaIssues isValid body); [done|]. by run_handler.
Qed.

Lemma schemaIssues_nil (body : SubmitBody.t) :
  schemaIssues isValid body = [] ↔
  isValid (SubmitBody.Current_Booking_id body) = true
  ∧ isValid (SubmitBody.RequestedDateId body) = true
  ∧ isValid (SubmitBody.RequestedSlotId body) = true.
Proof.
  unfold schemaIssues.
  destruct (isValid (SubmitBody.Current_Booking_id body)),
    (isValid (SubmitBody.RequestedDateId body)),
    (isValid (SubmitBody.RequestedSlotId body)); simpl; intuition discriminate.
Qed.
End HandlerEquations.

(** The selection of the by-expert query, read as a specification: the stored
    requests, in order, whose own [expertId] is the given one. *)
Lemma find_expertId_spec (ExpertId : string) (l : list IReschedulingRequest.t) :
  List.filter (ReschedulingRequest.forExpert ExpertId) l
  = filter (λ r, IReschedulingRequest.expertId r = Some ExpertId) l.
Proof.
  induction l as [|r l IH]; simpl; [done|].
  rewrite filter_cons. destruct (ReschedulingRequest.forExpert ExpertId r) eqn:E.
  - apply forExpert_true in E. rewrite decide_True by done. by rewrite IH.
  - rewrite decide_False; [done|]. intros HE. apply forExpert_true in HE. congruence.
Qed.

Lemma getRescheduleRequestsByExpert_unknown (isValid : string → bool) (db : DB)
    (ExpertId : string) :
  experts db !! ExpertId = None →
  isValid ExpertId = true →
  getRescheduleRequestsByExpert isValid ExpertId db
  = (mkResponse 404 (JMessage "Expert not found"), db).
Proof.
  intros H Hv. unfold getRescheduleRequestsByExpert. run_handler. by rewrite H, Hv.
Qed.

Lemma getRescheduleRequestsByExpert_malformed (isValid : string → bool) (db : DB)
    (ExpertId : string) :
  experts db !! ExpertId = None →
  isValid ExpertId = false →
  getRescheduleRequestsByExpert isValid ExpertId db
  = (mkResponse 500
       (JMessageError "Internal server error"
          (Error_message (CastError ExpertId "_id"))), db).
Proof.
  intros H Hv. unfold getRescheduleRequestsByExpert. run_handler. by rewrite H, Hv.
Qed.

Lemma getRescheduleRequestsByExpert_none (isValid : string → bool) (db : DB)
    (ExpertId : string) (expert : IExpert) :
  experts db !! ExpertId = Some expert →
  List.filter (ReschedulingRequest.forExpert ExpertId) (requests db) = [] →
  getRescheduleRequestsByExpert isValid ExpertId db
  = (mkResponse 404 (JMessage "No reschedule requests found for this expert"), db).
Proof.
  intros H Hl. unfold getRescheduleRequestsByExpert. run_handler. by rewrite H, Hl.
Qed.

Lemma getRescheduleRequestsByExpert_some (isValid : string → bool) (db : DB)
    (ExpertId : string) (expert : IExpert) :
  experts db !! ExpertId = Some expert →
  List.filter (ReschedulingRequest.forExpert ExpertId) (requests db) ≠ [] →
  getRescheduleRequestsByExpert isValid ExpertId db
  = (mkResponse 200
       (JMessageList "Rescheduling requests retrieved successfully"
          (map (formatRequest db expert)
             (List.filter (ReschedulingRequest.forExpert ExpertId) (requests db)))),
     db).
Proof.
  intros H Hl. unfold getRescheduleRequestsByExpert. run_handler. rewrite H.
  destruct (List.filter _ _) as [|r l]; [done|]. simpl.
  by rewrite List.map_map.
Qed.

(** ** Submitting a request *)

(** C1, as the code has it: [POST /reschedule] looks for no earlier request.
    In every state of the database, also one where the booking already has
    active requests, a submission whose identifiers pass the schema is
    answered 201 and one more request for that booking is stored behind the
    earlier ones; the handler has no conflict answer. *)
Theorem C1_submit_stores_a_further_request
    (isValid : string → bool) (db : DB) (body : SubmitBody.t) :
  schemaIssues isValid body = [] →
  let id := SubmitBody.Current_Booking_id body in
  let submitted := postReschedule isValid body db in
  submitted.1 = mkResponse 201 (JMessage "Rescheduling request created successfully")
  ∧ ReschedulingRequest.referring id submitted.2
    = ReschedulingRequest.referring id db
      ++ [IReschedulingRequest.mk None (Some id) (SubmitBody.RequestedDateId body)
            (SubmitBody.RequestedSlotId body) None]
  ∧ length (ReschedulingRequest.referring id submitted.2)
    = S (length (ReschedulingRequest.referring id db)).
Proof.
  intros Hok id submitted. subst submitted.
  rewrite (postReschedule_valid _ _ _ Hok). cbn [fst snd].
  assert (Hp : ReschedulingRequest.referring id
                 (set_requests (λ l, l ++ [IReschedulingRequest.mk None (Some id)
                    (SubmitBody.RequestedDateId body)
                    (SubmitBody.RequestedSlotId body) None]) db)
               = ReschedulingRequest.referring id db
                 ++ [IReschedulingRequest.mk None (Some id)
                       (SubmitBody.RequestedDateId body)
                       (SubmitBody.RequestedSlotId body) None]).
  { unfold ReschedulingRequest.referring. simpl. rewrite List.filter_app. simpl.
    unfold ReschedulingRequest.refersTo at 2. simpl. by rewrite String.eqb_refl. }
  split; [done|]. split; [exact Hp|].
  etrans; [exact (f_equal length Hp)|].
  rewrite length_app. simpl. lia.
Qed.

(** C1, the counterexample: booking [B1] has an active request, a second
    submission for [B1] is answered 201 and two requests for [B1] are
    stored. *)
Lemma C1_second_request_is_accepted :
  length (ReschedulingRequest.referring B1 db_pending) = 1
  ∧ res_status (postReschedule hexObjectId submit_B1_D2_S5 db_pending).1 = 201
  ∧ ReschedulingRequest.referring B1
      (postReschedule hexObjectId submit_B1_D2_S5 db_pending).2
    = [request_B1_D2_S5; submitted_B1_D2_S5].
Proof. by vm_compute. Qed.

Lemma C1_submit_stores_a_further_request_witness :
  schemaIssues hexObjectId submit_B1_D2_S5 = []
  ∧ length (ReschedulingRequest.referring B1
              (postReschedule hexObjectId submit_B1_D2_S5 db_pending).2)
    = S (length (ReschedulingRequest.referring B1 db_pending)).
Proof.
  split; [reflexivity|].
  apply (C1_submit_stores_a_further_request hexObjectId db_pending submit_B1_D2_S5).
  reflexivity.
Defined.

(** C8, as the code has it: [POST /reschedule] succeeds exactly when the
    three identifiers of the body are well formed, and never looks the
    booking up: the answer is the same on every database.  On success one
    request with the submitted identifiers is appended; whatever the answer,
    the bookings, experts, dates and slots are as before, and a refused
    submission stores nothing. *)
Theorem C8_submit_checks_identifiers_only
    (isValid : string → bool) (db : DB) (body : SubmitBody.t) :
  let submitted := postReschedule isValid body db in
  (res_status submitted.1 = 201
   ↔ isValid (SubmitBody.Current_Booking_id body) = true
     ∧ isValid (SubmitBody.RequestedDateId body) = true
     ∧ isValid (SubmitBody.RequestedSlotId body) = true)
  ∧ (res_status submitted.1 = 201 →
     requests submitted.2
     = requests db
       ++ [IReschedulingRequest.mk None (Some (SubmitBody.Current_Booking_id body))
             (SubmitBody.RequestedDateId body) (SubmitBody.RequestedSlotId body) None])
  ∧ (res_status submitted.1 ≠ 201 →
     res_status submitted.1 = 400 ∧ submitted.2 = db)
  ∧ (∀ db', (postReschedule isValid body db').1 = submitted.1)
  ∧ bookings submitted.2 = bookings db
  ∧ experts submitted.2 = experts db
  ∧ dates submitted.2 = dates db
  ∧ slots submitted.2 = slots db.
Proof.
  intros submitted. subst submitted.
  destruct (schemaIssues isValid body) as [|issue rest] eqn:E.
  - rewrite (postReschedule_valid _ _ _ E). simpl.
    assert (Hany : ∀ db', (postReschedule isValid body db').1
                          = mkResponse 201
                              (JMessage "Rescheduling request created successfully"))
      by (intros db'; by rewrite (postReschedule_valid _ _ _ E)).
    apply schemaIssues_nil in E. destruct E as (Hb & Hd & Hs).
    repeat split; done.
  - assert (Hne : schemaIssues isValid body ≠ []) by (rewrite E; discriminate).
    assert (Hany : ∀ db', (postReschedule isValid body db').1
                          = mkResponse 400 (JErrors (schemaIssues isValid body)))
      by (intros db'; by rewrite (postReschedule_invalid _ _ _ Hne)).
    rewrite (postReschedule_invalid _ _ _ Hne). simpl.
    repeat split; try done.
    intros Hv. apply schemaIssues_nil in Hv. congruence.
Qed.

(** C8, the counterexample: no booking [B2] exists, and a request to
    reschedule it is still answered 201 and stored. *)
Lemma C8_submit_for_missing_booking_succeeds :
  bookings db_booked !! B2 = None
  ∧ res_status (postReschedule hexObjectId submit_B2_D2_S5 db_booked).1 = 201
  ∧ requests (postReschedule hexObjectId submit_B2_D2_S5 db_booked).2
    = [IReschedulingRequest.mk None (Some B2) D2 S5 None].
Proof. by vm_compute. Qed.

(** ** Deciding a request *)

(** C6, as the code has it: a decision whose [CurrentBookingId] names no
    booking changes nothing, whatever its action and requested identifiers.
    When the id is a well-formed identifier the lookup gives null and the
    answer is 404 "Booking not found"; when it is not, the lookup throws and
    the answer is 500.  The lookup comes before anything else. *)
Theorem C6_decide_missing_booking_is_refused_first
    (isValid : string → bool) (db : DB) (body : HandleBody.t) :
  let id := HandleBody.CurrentBookingId body in
  bookings db !! id = None →
  let decided := handleReschedule isValid body db in
  decided.2 = db
  ∧ (isValid id = true →
     decided.1 = mkResponse 404 (JMessage "Booking not found"))
  ∧ (isValid id = false →
     decided.1
     = mkResponse 500
         (JMessageError "Internal server error" (Error_message (CastError id "_id")))).
Proof.
  intros id Hnone decided. subst decided.
  destruct (isValid id) eqn:Hv.
  - rewrite (handleReschedule_missing _ _ _ Hnone Hv). done.
  - rewrite (handleReschedule_malformed _ _ _ Hnone Hv). done.
Qed.

(** C6, the counterexample: the id "nope" names no booking and the decision
    is answered 500, not 404. *)
Lemma C6_malformed_booking_id_is_answered_500 :
  bookings db_pending !! "nope" = None
  ∧ res_status (handleReschedule hexObjectId (decision "nope" D2 S5 "accepted") db_pending).1
    = 500.
Proof. by vm_compute. Qed.

Lemma C6_decide_missing_booking_is_refused_first_witness :
  bookings db_pending !! B2 = None
  ∧ hexObjectId B2 = true
  ∧ handleReschedule hexObjectId (decision B2 D2 S5 "accepted") db_pending
    = (mkResponse 404 (JMessage "Booking not found"), db_pending).
Proof.
  split; [reflexivity|]. split; [reflexivity|].
  pose proof (C6_decide_missing_booking_is_refused_first hexObjectId db_pending
                (decision B2 D2 S5 "accepted") eq_refl) as (Hdb & Hfound & _).
  apply injective_projections; [exact (Hfound eq_refl) | exact Hdb].
Defined.

(** C9, as the code has it: the booking is looked up before the action and
    the requested identifiers are read.  With a [CurrentBookingId] that
    names no booking the answer is 404 when the id is well formed and 500
    when it is not, whatever the action is and whether or not the requested
    identifiers are well formed: it is never one of the 400 answers, and
    nothing is changed. *)
Theorem C9_missing_booking_precedes_validation
    (isValid : string → bool) (db : DB) (id : string) :
  bookings db !! id = None →
  ∀ RequestedDateId RequestedSlotId action newDate : string,
    let decided :=
      handleReschedule isValid
        (HandleBody.mk id RequestedDateId RequestedSlotId action newDate) db in
    (isValid id = true → res_status decided.1 = 404)
    ∧ (isValid id = false → res_status decided.1 = 500)
    ∧ res_status decided.1 ≠ 400
    ∧ decided.1 ≠ mkResponse 400 (JMessage "Invalid action")
    ∧ decided.1 ≠ mkResponse 400 (JMessage "Invalid date or slot ID")
    ∧ decided.2 = db.
Proof.
  intros H d s a nd decided. subst decided.
  destruct (isValid id) eqn:Hv.
  - rewrite handleReschedule_missing by done. by cbn.
  - rewrite handleReschedule_malformed by done. by cbn.
Qed.

(** C9, the counterexample: with the id "booking-42", which names no
    booking, an unknown action and malformed requested identifiers are
    answered 500, not 404. *)
Lemma C9_malformed_booking_id_precedes_validation :
  bookings db_pending !! "booking-42" = None
  ∧ res_status
      (handleReschedule hexObjectId (decision "booking-42" "tomorrow" "noon" "postponed")
         db_pending).1
    = 500.
Proof. by vm_compute. Qed.

Lemma C9_missing_booking_precedes_validation_witness :
  bookings db_pending !! B2 = None
  ∧ hexObjectId "tomorrow" = false
  ∧ hexObjectId B2 = true
  ∧ res_status
      (handleReschedule hexObjectId (decision B2 "tomorrow" "noon" "postponed") db_pending).1
    = 404.
Proof.
  split; [reflexivity|]. split; [reflexivity|]. split; [reflexivity|].
  pose proof (C9_missing_booking_precedes_validation hexObjectId db_pending B2 eq_refl
                "tomorrow" "noon" "postponed" "") as (Hfound & _).
  exact (Hfound eq_refl).
Defined.

(** C5: a decision for a booking that is found, with an action that is
    neither "accepted" nor "rejected", is answered 400 "Invalid action" and
    changes nothing: the bookings and the requests are as before.  Nothing
    is changed either when the booking is not found. *)
Theorem C5_unknown_action_is_refused_without_effect
    (isValid : string → bool) (db : DB) (body : HandleBody.t) :
  HandleBody.action body ≠ "accepted" →
  HandleBody.action body ≠ "rejected" →
  let decided := handleReschedule isValid body db in
  decided.2 = db
  ∧ (∀ bk, bookings db !! HandleBody.CurrentBookingId body = Some bk →
       decided = (mkResponse 400 (JMessage "Invalid action"), db)).
Proof.
  intros Ha Hr decided. subst decided. split.
  - destruct (bookings db !! HandleBody.CurrentBookingId body) as [bk|] eqn:E.
    + by rewrite (handleReschedule_other_action _ _ _ _ E Ha Hr).
    + destruct (isValid (HandleBody.CurrentBookingId body)) eqn:Hv.
      * by rewrite (handleReschedule_missing _ _ _ E Hv).
      * by rewrite (handleReschedule_malformed _ _ _ E Hv).
  - intros bk E. by apply (handleReschedule_other_action _ _ _ bk).
Qed.

Lemma C5_unknown_action_is_refused_without_effect_witness :
  bookings db_pending !! B1 = Some booking1
  ∧ handleReschedule hexObjectId (decision B1 D2 S5 "postponed") db_pending
    = (mkResponse 400 (JMessage "Invalid action"), db_pending).
Proof.
  split; [reflexivity|].
  pose proof (C5_unknown_action_is_refused_without_effect hexObjectId db_pending
                (decision B1 D2 S5 "postponed")
                ltac:(discriminate) ltac:(discriminate)) as (_ & Hfound).
  exact (Hfound booking1 eq_refl).
Defined.

(** C2, as the code has it: a decision for an existing booking without any
    pending request is never answered NotFound, because no request is looked
    up.  "rejected" is answered 200 and changes nothing at all; "accepted"
    with well-formed identifiers is answered 200 and rewrites the booking,
    the request collection staying as it was; every other call is answered
    400 and changes nothing: "accepted" with a malformed date or slot
    identifier with "Invalid date or slot ID", any other action with
    "Invalid action". *)
Theorem C2_decide_without_request_is_not_refused
    (isValid : string → bool) (db : DB) (body : HandleBody.t) (bk : Booking) :
  let id := HandleBody.CurrentBookingId body in
  let d := HandleBody.RequestedDateId body in
  let s := HandleBody.RequestedSlotId body in
  bookings db !! id = Some bk →
  ReschedulingRequest.pending id db = [] →
  let decided := handleReschedule isValid body db in
  res_status decided.1 ≠ 404
  ∧ requests decided.2 = requests db
  ∧ (HandleBody.action body = "rejected" →
     decided
     = (mkResponse 200 (JMessage "Reschedule request rejected successfully"), db))
  ∧ (HandleBody.action body = "accepted" → isValid d = true → isValid s = true →
     decided
     = (mkResponse 200
          (JMessageBooking "Reschedule request accepted successfully" id
             (mkBooking (expertId bk) d s RESCHEDULED)),
        set_bookings <[id := mkBooking (expertId bk) d s RESCHEDULED]> db))
  ∧ (HandleBody.action body = "accepted" → isValid d = false ∨ isValid s = false →
     decided = (mkResponse 400 (JMessage "Invalid date or slot ID"), db))
  ∧ (HandleBody.action body ≠ "accepted" → HandleBody.action body ≠ "rejected" →
     decided = (mkResponse 400 (JMessage "Invalid action"), db)).
Proof.
  intros id d s Hbk Hnone decided. subst decided.
  unfold ReschedulingRequest.pending in Hnone.
  assert (Hsame : ∀ db', requests db' = requests db →
            set_requests
              (ReschedulingRequest.removeFirst (ReschedulingRequest.forBooking id)) db'
            = db').
  { intros db' Hr. destruct db'. unfold set_requests. cbn in *. subst.
    by rewrite (removeFirst_no_match _ _ Hnone). }
  destruct (String.eqb (HandleBody.action body) "accepted") eqn:Ea.
  - apply String.eqb_eq in Ea.
    destruct (isValid d) eqn:Ed; [destruct (isValid s) eqn:Es|].
    + rewrite (handleReschedule_accepted _ _ _ _ Hbk Ea Ed Es). fold id d s.
      rewrite Hsame by done. cbn.
      repeat split; try done; other_branch.
    + rewrite (handleReschedule_accepted_invalid _ _ _ _ Hbk Ea (or_intror Es)). cbn.
      repeat split; try done; other_branch.
    + rewrite (handleReschedule_accepted_invalid _ _ _ _ Hbk Ea (or_introl Ed)). cbn.
      repeat split; try done; other_branch.
  - apply String.eqb_neq in Ea.
    destruct (String.eqb (HandleBody.action body) "rejected") eqn:Er.
    + apply String.eqb_eq in Er.
      rewrite (handleReschedule_rejected _ _ _ _ Hbk Er). fold id.
      rewrite Hsame by done. cbn.
      repeat split; try done; other_branch.
    + apply String.eqb_neq in Er.
      rewrite (handleReschedule_other_action _ _ _ _ Hbk Ea Er). cbn.
      repeat split; try done; other_branch.
Qed.

(** C2, the counterexample: booking [B1] exists and has no pending request,
    and rejecting is answered 200 while nothing is changed. *)
Lemma C2_reject_without_request_succeeds :
  bookings db_booked !! B1 = Some booking1
  ∧ ReschedulingRequest.pending B1 db_booked = []
  ∧ handleReschedule hexObjectId (decision B1 D2 S5 "rejected") db_booked
    = (mkResponse 200 (JMessage "Reschedule request rejected successfully"), db_booked).
Proof. by vm_compute. Qed.

Lemma C2_decide_without_request_is_not_refused_witness :
  bookings db_booked !! B1 = Some booking1
  ∧ ReschedulingRequest.pending B1 db_booked = []
  ∧ res_status (handleReschedule hexObjectId (decision B1 D2 S5 "accepted") db_booked).1
    ≠ 404.
Proof.
  split; [reflexivity|]. split; [reflexivity|].
  apply (C2_decide_without_request_is_not_refused hexObjectId db_booked
           (decision B1 D2 S5 "accepted") booking1); reflexivity.
Defined.







(** ** The by-expert list *)

(** C7, as the code has it: the by-expert query has two NotFound answers
    that the caller can tell apart.  A well-formed [ExpertId] that matches
    no expert is answered 404 "Expert not found"; an existing expert for
    whom no stored request is selected is answered 404 "No reschedule
    requests found for this expert"; the two answers differ.  An [ExpertId]
    that is no well-formed identifier matches no expert either: the lookup
    throws and the answer is 500.  None of the three changes the database. *)
Theorem C7_by_expert_failures_are_distinct
    (isValid : string → bool) (db : DB) (ExpertId : string) :
  let answer := getRescheduleRequestsByExpert isValid ExpertId db in
  (experts db !! ExpertId = None → isValid ExpertId = true →
   answer = (mkResponse 404 (JMessage "Expert not found"), db))
  ∧ (experts db !! ExpertId = None → isValid ExpertId = false →
     answer
     = (mkResponse 500
          (JMessageError "Internal server error"
             (Error_message (CastError ExpertId "_id"))), db))
  ∧ (is_Some (experts db !! ExpertId) →
     (∀ r, r ∈ requests db → IReschedulingRequest.expertId r ≠ Some ExpertId) →
     answer
     = (mkResponse 404 (JMessage "No reschedule requests found for this expert"), db))
  ∧ mkResponse 404 (JMessage "Expert not found")
    ≠ mkResponse 404 (JMessage "No reschedule requests found for this expert").
Proof.
  intros answer. subst answer. split; [|split; [|split]].
  - apply getRescheduleRequestsByExpert_unknown.
  - apply getRescheduleRequestsByExpert_malformed.
  - intros [expert He] Hnone.
    apply (getRescheduleRequestsByExpert_none _ _ _ expert He).
    rewrite find_expertId_spec.
    destruct (filter _ (requests db)) as [|r l] eqn:E; [done|].
    assert (Hr : r ∈ filter (λ r, IReschedulingRequest.expertId r = Some ExpertId)
                   (requests db)) by (rewrite E; left).
    apply list_elem_of_filter in Hr as [Hr Hin]. by destruct (Hnone r Hin).
  - discriminate.
Qed.

(** C7, the counterexample: the id "nope" matches no expert and the query is
    answered 500, not with the NotFound of an unknown expert. *)
Lemma C7_malformed_expert_id_is_answered_500 :
  experts db_tagged !! "nope" = None
  ∧ res_status (getRescheduleRequestsByExpert hexObjectId "nope" db_tagged).1 = 500.
Proof. by vm_compute. Qed.

(** C10: the by-expert query selects on the [expertId] stored on the request
    documents themselves.  For an existing expert the list of the answer is
    made, in order, of exactly the stored requests whose own [expertId] is the
    given one, each populated and given the expert's username; a request
    without the field is selected for no expert, and so is a request whose
    booking belongs to the expert while its own field says otherwise. *)
Theorem C10_by_expert_selects_on_the_request_field
    (isValid : string → bool) (db : DB) (ExpertId : string) (expert : IExpert) :
  experts db !! ExpertId = Some expert →
  let selected :=
    filter (λ r, IReschedulingRequest.expertId r = Some ExpertId) (requests db) in
  let answer := getRescheduleRequestsByExpert isValid ExpertId db in
  (selected ≠ [] →
   answer
   = (mkResponse 200
        (JMessageList "Rescheduling requests retrieved successfully"
           (map (formatRequest db expert) selected)), db))
  ∧ (selected = [] → res_status answer.1 = 404)
  ∧ (∀ r, r ∈ selected ↔ r ∈ requests db ∧ IReschedulingRequest.expertId r = Some ExpertId)
  ∧ (∀ r, IReschedulingRequest.expertId r = None → r ∉ selected)
  ∧ (∀ r id bk,
       IReschedulingRequest.CurrentBookingId r = Some id →
       bookings db !! id = Some bk →
       expertId bk = ExpertId →
       IReschedulingRequest.expertId r ≠ Some ExpertId →
       r ∉ selected).
Proof.
  intros He selected answer. subst answer selected.
  split; [|split; [|split; [|split]]].
  - intros Hsome. rewrite <- find_expertId_spec in *.
    by apply getRescheduleRequestsByExpert_some.
  - intros Hnone. rewrite <- find_expertId_spec in Hnone.
    by rewrite (getRescheduleRequestsByExpert_none _ _ _ _ He Hnone).
  - intros r. rewrite list_elem_of_filter. tauto.
  - intros r Hr Hin. apply list_elem_of_filter in Hin as [Hin _]. congruence.
  - intros r id bk _ _ _ Hne Hin. apply list_elem_of_filter in Hin as [Hin _]. done.
Qed.

Lemma C10_by_expert_selects_on_the_request_field_witness :
  experts db_tagged !! E1 = Some expert1
  ∧ getRescheduleRequestsByExpert hexObjectId E1 db_tagged
    = (mkResponse 200
         (JMessageList "Rescheduling requests retrieved successfully"
            [formatRequest db_tagged expert1 request_B1_for_E1]), db_tagged).
Proof.
  split; [reflexivity|].
  pose proof (C10_by_expert_selects_on_the_request_field hexObjectId db_tagged E1 expert1
                eq_refl)
    as (Hsome & _).
  apply Hsome. discriminate.
Defined.

(** The request [POST /reschedule] stores has no [expertId]: although it is
    for a booking of expert [E1], the by-expert list of [E1] does not show it. *)
Example submitted_request_reaches_no_expert :
  expertId booking1 = E1
  ∧ (getRescheduleRequestsByExpert hexObjectId E1
       (postReschedule hexObjectId submit_B1_D2_S5 db_booked).2).1
    = mkResponse 404 (JMessage "No reschedule requests found for this expert").
Proof. by vm_compute. Qed.

(** An unknown expert and an expert without requests, on the sample data. *)
Example by_expert_failures_on_the_samples :
  (getRescheduleRequestsByExpert hexObjectId E3 db_tagged).1
  = mkResponse 404 (JMessage "Expert not found")
  ∧ (getRescheduleRequestsByExpert hexObjectId E2 db_tagged).1
    = mkResponse 404 (JMessage "No reschedule requests found for this expert").
Proof. by vm_compute. Qed.

(** * Further properties of the rescheduling routes *)

(** Every call of [POST /handle-Reschedule] ends in one of six ways. *)
Lemma handleReschedule_cases (isValid : string → bool) (body : HandleBody.t) (db : DB) :
  let id := HandleBody.CurrentBookingId body in
  let d := HandleBody.RequestedDateId body in
  let s := HandleBody.RequestedSlotId body in
  (bookings db !! id = None ∧ isValid id = true
   ∧ handleReschedule isValid body db
     = (mkResponse 404 (JMessage "Booking not found"), db))
  ∨ (bookings db !! id = None ∧ isValid id = false
     ∧ handleReschedule isValid body db
       = (mkResponse 500
            (JMessageError "Internal server error" (Error_message (CastError id "_id"))),
          db))
  ∨ (is_Some (bookings db !! id)
     ∧ HandleBody.action body = "accepted"
     ∧ (isValid d = false ∨ isValid s = false)
     ∧ handleReschedule isValid body db
       = (mkResponse 400 (JMessage "Invalid date or slot ID"), db))
  ∨ (is_Some (bookings db !! id)
     ∧ HandleBody.action body ≠ "accepted" ∧ HandleBody.action body ≠ "rejected"
     ∧ handleReschedule isValid body db
       = (mkResponse 400 (JMessage "Invalid action"), db))
  ∨ (is_Some (bookings db !! id)
     ∧ HandleBody.action body = "rejected"
     ∧ handleReschedule isValid body db
       = (mkResponse 200 (JMessage "Reschedule request rejected successfully"),
          set_requests
            (ReschedulingRequest.removeFirst (ReschedulingRequest.forBooking id)) db))
  ∨ (∃ bk, bookings db !! id = Some bk
     ∧ HandleBody.action body = "accepted" ∧ isValid d = true ∧ isValid s = true
     ∧ handleReschedule isValid body db
       = (mkResponse 200
            (JMessageBooking "Reschedule request accepted successfully" id
               (mkBooking (expertId bk) d s RESCHEDULED)),
          set_requests
            (ReschedulingRequest.removeFirst (ReschedulingRequest.forBooking id))
            (set_bookings <[id := mkBooking (expertId bk) d s RESCHEDULED]> db))).
Proof.
  intros id d s.
  destruct (bookings db !! id) as [bk|] eqn:Hbk.
  2: { destruct (isValid id) eqn:Hv.
       - left. split; [done|]. split; [done|]. by apply handleReschedule_missing.
       - right. left. split; [done|]. split; [done|].
         by apply handleReschedule_malformed. }
  do 2 right.
  destruct (String.eqb (HandleBody.action body) "accepted") eqn:Ea.
  - apply String.eqb_eq in Ea.
    destruct (isValid d) eqn:Ed; [destruct (isValid s) eqn:Es|].
    + do 3 right. exists bk. repeat split; try done.
      by apply handleReschedule_accepted.
    + left. repeat split; try done; [by right|].
      eapply handleReschedule_accepted_invalid; eauto.
    + left. repeat split; try done; [by left|].
      eapply handleReschedule_accepted_invalid; eauto.
  - apply String.eqb_neq in Ea. right.
    destruct (String.eqb (HandleBody.action body) "rejected") eqn:Er.
    + apply String.eqb_eq in Er. right. left. repeat split; try done.
      eapply handleReschedule_rejected; eauto.
    + apply String.eqb_neq in Er. left. repeat split; try done.
      eapply handleReschedule_other_action; eauto.
Qed.

(** Where [deleteOne] cuts: nothing when no document matches, and otherwise
    the first match, with no match before it. *)
Lemma removeFirst_split (f : IReschedulingRequest.t → bool)
    (l : list IReschedulingRequest.t) :
  List.filter f l ≠ [] →
  ∃ before r after,
    l = before ++ r :: after
    ∧ f r = true
    ∧ Forall (λ r', f r' = false) before
    ∧ ReschedulingRequest.removeFirst f l = before ++ after.
Proof.
  induction l as [|r l IH]; simpl; [done|].
  destruct (f r) eqn:E.
  - intros _. by exists [], r, l.
  - intros Hne. destruct (IH Hne) as (before & r' & after & -> & Hr' & Hb & Hrem).
    exists (r :: before), r', after. repeat split; try done.
    + by constructor.
    + simpl. by rewrite Hrem.
Qed.

(** X1: an answer of [POST /handle-Reschedule] other than 200 leaves the
    whole database as it was. *)
Theorem X1_handleReschedule_refusal_changes_nothing
    (isValid : string → bool) (body : HandleBody.t) (db : DB) :
  res_status (handleReschedule isValid body db).1 ≠ 200 →
  (handleReschedule isValid body db).2 = db.
Proof.
  intros Hrefused.
  destruct (handleReschedule_cases isValid body db)
    as [(_ & _ & H) | [(_ & _ & H) | [(_ & _ & _ & H) | [(_ & _ & _ & H)
        | [(_ & _ & H) | H]]]]];
    try (by rewrite H).
  - rewrite H in Hrefused. by destruct Hrefused.
  - destruct H as (bk & _ & _ & _ & _ & H). rewrite H in Hrefused. by destruct Hrefused.
Qed.

Lemma X1_handleReschedule_refusal_changes_nothing_witness :
  res_status (handleReschedule hexObjectId (decision B1 "tomorrow" S5 "accepted") db_pending).1
  ≠ 200
  ∧ (handleReschedule hexObjectId (decision B1 "tomorrow" S5 "accepted") db_pending).2
    = db_pending.
Proof.
  split; [by vm_compute|].
  apply (X1_handleReschedule_refusal_changes_nothing hexObjectId
           (decision B1 "tomorrow" S5 "accepted") db_pending).
  by vm_compute.
Defined.

(** What [POST /handle-Reschedule] can change. *)
Lemma handleReschedule_frame
    (isValid : string → bool) (body : HandleBody.t) (db : DB) :
  let id := HandleBody.CurrentBookingId body in
  let db' := (handleReschedule isValid body db).2 in
  experts db' = experts db ∧ dates db' = dates db ∧ slots db' = slots db
  ∧ dom (bookings db') = dom (bookings db)
  ∧ (∀ id', id' ≠ id → bookings db' !! id' = bookings db !! id')
  ∧ (∀ bk', bookings db' !! id = Some bk' →
       ∃ bk, bookings db !! id = Some bk
             ∧ expertId bk' = expertId bk
             ∧ (bk' = bk
                ∨ (dateId bk' = HandleBody.RequestedDateId body
                   ∧ slotId bk' = HandleBody.RequestedSlotId body
                   ∧ status bk' = RESCHEDULED))).
Proof.
  intros id db'. subst db'.
  destruct (handleReschedule_cases isValid body db)
    as [(_ & _ & H) | [(_ & _ & H) | [(_ & _ & _ & H) | [(_ & _ & _ & H)
        | [(_ & _ & H) | H]]]]].
  1-5: rewrite H; cbn; repeat split; try done; intros bk' Hbk'; exists bk'; auto.
  destruct H as (bk & Hbk & _ & _ & _ & H). rewrite H. cbn. fold id.
  repeat split; try done.
  - apply dom_insert_lookup_L. by eexists.
  - intros id' Hne. by apply lookup_insert_ne.
  - intros bk'. rewrite lookup_insert_eq. intros [= <-].
    exists bk. split; [done|]. split; [done|]. right. done.
Qed.

(** X2: whatever the call, [POST /handle-Reschedule] creates and deletes no
    booking and writes no expert, date or slot.  Only the booking named in
    the call can change; its expert stays, and if it changes it carries the
    date and slot of the call and the status RESCHEDULED. *)
Theorem X2_handleReschedule_touches_one_booking
    (isValid : string → bool) (body : HandleBody.t) (db : DB) :
  let id := HandleBody.CurrentBookingId body in
  let db' := (handleReschedule isValid body db).2 in
  experts db' = experts db ∧ dates db' = dates db ∧ slots db' = slots db
  ∧ dom (bookings db') = dom (bookings db)
  ∧ (∀ id', id' ≠ id → bookings db' !! id' = bookings db !! id')
  ∧ (∀ bk', bookings db' !! id = Some bk' →
       ∃ bk, bookings db !! id = Some bk
             ∧ expertId bk' = expertId bk
             ∧ (bk' = bk
                ∨ (dateId bk' = HandleBody.RequestedDateId body
                   ∧ slotId bk' = HandleBody.RequestedSlotId body
                   ∧ status bk' = RESCHEDULED))).
Proof. apply handleReschedule_frame. Qed.

(** What [POST /handle-Reschedule] leaves of the requests. *)
Lemma handleReschedule_requests
    (isValid : string → bool) (body : HandleBody.t) (db : DB) :
  requests (handleReschedule isValid body db).2 = requests db
  ∨ (res_status (handleReschedule isValid body db).1 = 200
     ∧ requests (handleReschedule isValid body db).2
       = ReschedulingRequest.removeFirst
           (ReschedulingRequest.forBooking (HandleBody.CurrentBookingId body))
           (requests db)).
Proof.
  destruct (handleReschedule_cases isValid body db)
    as [(_ & _ & H) | [(_ & _ & H) | [(_ & _ & _ & H) | [(_ & _ & _ & H)
        | [(_ & _ & H) | H]]]]].
  1-4: left; by rewrite H.
  - right. by rewrite H.
  - right. destruct H as (bk & _ & _ & _ & _ & H). by rewrite H.
Qed.

(** X3: an accepted or rejected decision for a booking with stored requests
    deletes exactly one of them: the first stored request of that booking.
    The requests before it (none of them of that booking) and all the
    requests after it, later requests of that booking among them, stay in
    their order. *)
Theorem X3_decision_deletes_the_oldest_request
    (isValid : string → bool) (body : HandleBody.t) (db : DB) :
  let id := HandleBody.CurrentBookingId body in
  let decided := handleReschedule isValid body db in
  res_status decided.1 = 200 →
  ReschedulingRequest.pending id db ≠ [] →
  ∃ before r after,
    requests db = before ++ r :: after
    ∧ IReschedulingRequest.CurrentBookingId r = Some id
    ∧ Forall (λ r', IReschedulingRequest.CurrentBookingId r' ≠ Some id) before
    ∧ requests decided.2 = before ++ after.
Proof.
  intros id decided Hok Hpending. subst decided.
  destruct (removeFirst_split _ _ Hpending) as (before & r & after & Hl & Hr & Hb & Hrem).
  exists before, r, after.
  split; [done|]. split; [by apply forBooking_true|].
  split; [eapply Forall_impl; [exact Hb|]; intros r'; apply forBooking_false|].
  destruct (handleReschedule_cases isValid body db)
    as [(_ & _ & H) | [(_ & _ & H) | [(_ & _ & _ & H) | [(_ & _ & _ & H)
        | [(_ & _ & H) | H]]]]].
  1-4: rewrite H in Hok; discriminate.
  - by rewrite H.
  - destruct H as (bk & _ & _ & _ & _ & H). by rewrite H.
Qed.

Lemma X3_decision_deletes_the_oldest_request_witness :
  ∃ before r after,
    requests db_tagged = before ++ r :: after
    ∧ IReschedulingRequest.CurrentBookingId r = Some B1
    ∧ Forall (λ r', IReschedulingRequest.CurrentBookingId r' ≠ Some B1) before
    ∧ requests (handleReschedule hexObjectId (decision B1 D2 S5 "rejected") db_tagged).2
      = before ++ after.
Proof.
  apply (X3_decision_deletes_the_oldest_request hexObjectId
           (decision B1 D2 S5 "rejected") db_tagged).
  - reflexivity.
  - discriminate.
Defined.

Lemma postReschedule_created (isValid : string → bool) (body : SubmitBody.t) (db : DB) :
  res_status (postReschedule isValid body db).1 = 201 →
  schemaIssues isValid body = [].
Proof.
  intros H. destruct (schemaIssues isValid body) as [|issue rest] eqn:E; [done|].
  rewrite postReschedule_invalid in H by (rewrite E; discriminate). discriminate.
Qed.

(** What [POST /reschedule] leaves behind, whatever it answers. *)
Lemma postReschedule_state (isValid : string → bool) (body : SubmitBody.t) (db : DB) :
  (postReschedule isValid body db).2 = db
  ∨ (postReschedule isValid body db).2
    = set_requests
        (λ l, l ++ [IReschedulingRequest.mk None
                      (Some (SubmitBody.Current_Booking_id body))
                      (SubmitBody.RequestedDateId body)
                      (SubmitBody.RequestedSlotId body) None]) db.
Proof.
  destruct (schemaIssues isValid body) as [|issue rest] eqn:E.
  - right. by rewrite postReschedule_valid.
  - left. rewrite postReschedule_invalid; [done|]. rewrite E. discriminate.
Qed.

(** [deleteOne] leaves a document that its filter does not match. *)
Lemma removeFirst_keeps (f : IReschedulingRequest.t → bool)
    (l : list IReschedulingRequest.t) (r : IReschedulingRequest.t) :
  f r = false → r ∈ l → r ∈ ReschedulingRequest.removeFirst f l.
Proof.
  intros Hr. induction l as [|x l IH]; simpl; [done|].
  intros Hin. apply elem_of_cons in Hin as [-> | Hin].
  - rewrite Hr. left.
  - destruct (f x); [done|]. right. by apply IH.
Qed.

(** X4: a request that [POST /reschedule] has stored is deleted by no
    decision: the submit route files the booking under the key
    [Current_Booking_id], and [deleteOne] of the decide route filters on
    [CurrentBookingId].  After a submission answered 201, whatever decisions
    follow, the submitted request is still stored. *)
Theorem X4_decisions_keep_a_submitted_request
    (isValid : string → bool) (db : DB) (body : SubmitBody.t)
    (decisions : list HandleBody.t) :
  let submitted := postReschedule isValid body db in
  res_status submitted.1 = 201 →
  IReschedulingRequest.mk None (Some (SubmitBody.Current_Booking_id body))
    (SubmitBody.RequestedDateId body) (SubmitBody.RequestedSlotId body) None
  ∈ requests (foldl (λ db decision, (handleReschedule isValid decision db).2)
                submitted.2 decisions).
Proof.
  intros submitted Hcreated. subst submitted.
  apply postReschedule_created in Hcreated.
  rewrite (postReschedule_valid _ _ _ Hcreated). cbn [snd].
  set (new := IReschedulingRequest.mk _ _ _ _ _).
  assert (Hin : new ∈ requests (set_requests (λ l, l ++ [new]) db)).
  { cbn. apply elem_of_app. right. left. }
  revert Hin. generalize (set_requests (λ l, l ++ [new]) db). clear db.
  induction decisions as [|decision decisions IH]; intros db Hin; [done|].
  cbn. apply IH.
  destruct (handleReschedule_requests isValid decision db) as [-> | [_ ->]]; [done|].
  by apply removeFirst_keeps.
Qed.

Lemma X4_decisions_keep_a_submitted_request_witness :
  res_status (postReschedule hexObjectId submit_B1_D2_S5 db_booked).1 = 201
  ∧ submitted_B1_D2_S5
    ∈ requests
        (foldl (λ db decision, (handleReschedule hexObjectId decision db).2)
           (postReschedule hexObjectId submit_B1_D2_S5 db_booked).2
           [decision B1 D2 S5 "rejected"; decision B1 D2 S5 "accepted"]).
Proof.
  split; [reflexivity|].
  apply (X4_decisions_keep_a_submitted_request hexObjectId db_booked submit_B1_D2_S5
           [decision B1 D2 S5 "rejected"; decision B1 D2 S5 "accepted"] eq_refl).
Defined.

(** ** Sequences of calls *)

Lemma evolved_refl (m : gmap string Booking) : evolved m m.
Proof. split; [done|]. intros id bk H. exists bk. auto. Qed.

Lemma evolved_trans (m1 m2 m3 : gmap string Booking) :
  evolved m1 m2 → evolved m2 m3 → evolved m1 m3.
Proof.
  intros [Hd12 H12] [Hd23 H23]. split; [congruence|].
  intros id bk3 H3. destruct (H23 id bk3 H3) as (bk2 & H2 & He2 & Hs2).
  destruct (H12 id bk2 H2) as (bk1 & H1 & He1 & Hs1).
  exists bk1. split; [done|]. split; [congruence|].
  destruct Hs2 as [-> | Hs2]; [done | by right].
Qed.

Lemma removeFirst_sublist (f : IReschedulingRequest.t → bool)
    (l : list IReschedulingRequest.t) :
  sublist (ReschedulingRequest.removeFirst f l) l.
Proof.
  induction l as [|r l IH]; simpl; [done|].
  destruct (f r); [by apply sublist_cons | by apply sublist_skip].
Qed.

(** The by-expert list changes nothing. *)
Lemma getRescheduleRequestsByExpert_state (isValid : string → bool) (db : DB)
    (ExpertId : string) :
  (getRescheduleRequestsByExpert isValid ExpertId db).2 = db.
Proof.
  destruct (experts db !! ExpertId) as [e|] eqn:He.
  - destruct (List.filter (ReschedulingRequest.forExpert ExpertId) (requests db)) eqn:Hl.
    + by rewrite (getRescheduleRequestsByExpert_none _ _ _ _ He Hl).
    + by rewrite (getRescheduleRequestsByExpert_some _ _ _ _ He)
        by (rewrite Hl; discriminate).
  - destruct (isValid ExpertId) eqn:Hv.
    + by rewrite (getRescheduleRequestsByExpert_unknown _ _ _ He Hv).
    + by rewrite (getRescheduleRequestsByExpert_malformed _ _ _ He Hv).
Qed.

(** With no request filed under an expert the by-expert list shows nothing:
    it answers 404, or 500 when the id is no well-formed identifier. *)
Lemma getRescheduleRequestsByExpert_nothing (isValid : string → bool) (db : DB)
    (ExpertId : string) :
  (∀ r, r ∈ requests db → IReschedulingRequest.expertId r ≠ Some ExpertId) →
  res_status (getRescheduleRequestsByExpert isValid ExpertId db).1 ≠ 200
  ∧ (isValid ExpertId = true →
     res_status (getRescheduleRequestsByExpert isValid ExpertId db).1 = 404).
Proof.
  intros Hnone.
  destruct (experts db !! ExpertId) as [e|] eqn:He.
  - rewrite (getRescheduleRequestsByExpert_none _ _ _ e He); [done|].
    rewrite find_expertId_spec.
    destruct (filter _ _) as [|r l] eqn:Hf; [done|].
    assert (Hr : r ∈ filter (λ r, IReschedulingRequest.expertId r = Some ExpertId)
                   (requests db))
      by (rewrite Hf; left).
    apply list_elem_of_filter in Hr as [Hr Hin]. by destruct (Hnone r Hin).
  - destruct (isValid ExpertId) eqn:Hv.
    + by rewrite (getRescheduleRequestsByExpert_unknown _ _ _ He Hv).
    + by rewrite (getRescheduleRequestsByExpert_malformed _ _ _ He Hv).
Qed.

Section Server.
Variable isValid : string → bool.
Variable parse : ExpertPatch.t → list ZodIssue + ExpertPatch.t.
Variable dates_order : DB → list string.

Lemma serve_bookings (call : Call) (db : DB) :
  evolved (bookings db) (bookings (serve isValid parse dates_order call db))
  ∧ slots (serve isValid parse dates_order call db) = slots db.
Proof.
  destruct call as [body|body|E| |id|id body|id|E|D]; cbn.
  - destruct (postReschedule_state isValid body db) as [-> | ->];
      split; try done; apply evolved_refl.
  - pose proof (handleReschedule_frame isValid body db)
      as (_ & _ & Hs & Hdom & Hother & Hself).
    split; [|done]. split; [done|].
    intros id bk' Hbk'.
    destruct (decide (id = HandleBody.CurrentBookingId body)) as [-> | Hne].
    + destruct (Hself bk' Hbk') as (bk & Hbk & He & Hc).
      exists bk. split; [done|]. split; [done|]. destruct Hc as [-> | (_ & _ & Hst)]; auto.
    + rewrite (Hother id Hne) in Hbk'. exists bk'. auto.
  - rewrite getRescheduleRequestsByExpert_state. split; [apply evolved_refl | done].
  - split; [apply evolved_refl | done].
  - unfold getExpert. repeat case_match; split; try done; apply evolved_refl.
  - unfold putExpert. repeat case_match; split; try done; apply evolved_refl.
  - unfold deleteExpert. repeat case_match; split; try done; apply evolved_refl.
  - unfold getDatesByExpert. repeat case_match; split; try done; apply evolved_refl.
  - unfold deleteDate. repeat case_match; split; try done; apply evolved_refl.
Qed.

Lemma serve_requests (call : Call) (db : DB) (r : IReschedulingRequest.t) :
  r ∈ requests (serve isValid parse dates_order call db) →
  r ∈ requests db ∨ IReschedulingRequest.expertId r = None.
Proof.
  destruct call as [body|body|E| |id|id body|id|E|D]; cbn.
  - destruct (postReschedule_state isValid body db) as [-> | ->]; [by left|].
    cbn. rewrite elem_of_app, list_elem_of_singleton. intros [H | ->]; [by left | by right].
  - intros Hr. left.
    destruct (handleReschedule_requests isValid body db) as [H | [_ H]];
      rewrite H in Hr; [done|].
    eapply elem_of_sublist; [exact Hr | apply removeFirst_sublist].
  - rewrite getRescheduleRequestsByExpert_state. by left.
  - by left.
  - unfold getExpert. repeat case_match; by left.
  - unfold putExpert. repeat case_match; by left.
  - unfold deleteExpert. repeat case_match; by left.
  - unfold getDatesByExpert. repeat case_match; by left.
  - unfold deleteDate. repeat case_match; by left.
Qed.

End Server.

Lemma serveAll_snoc (isValid : string → bool)
    (parse : ExpertPatch.t → list ZodIssue + ExpertPatch.t)
    (dates_order : DB → list string) (calls : list Call) (call : Call) (db : DB) :
  serveAll isValid parse dates_order (calls ++ [call]) db
  = serve isValid parse dates_order call (serveAll isValid parse dates_order calls db).
Proof. unfold serveAll. by rewrite foldl_app. Qed.

(** X5: no sequence of calls to the routes modelled here creates or deletes
    a booking, changes the expert of a booking, or writes a slot; a booking
    that is not as it was at the start has the status RESCHEDULED. *)
Theorem X5_calls_keep_the_bookings
    (isValid : string → bool)
    (parse : ExpertPatch.t → list ZodIssue + ExpertPatch.t)
    (dates_order : DB → list string) (calls : list Call) (db : DB) :
  let db' := serveAll isValid parse dates_order calls db in
  dom (bookings db') = dom (bookings db)
  ∧ slots db' = slots db
  ∧ ∀ id bk', bookings db' !! id = Some bk' →
      ∃ bk, bookings db !! id = Some bk
            ∧ expertId bk' = expertId bk
            ∧ (bk' = bk ∨ status bk' = RESCHEDULED).
Proof.
  intros db'. subst db'.
  cut (evolved (bookings db) (bookings (serveAll isValid parse dates_order calls db))
       ∧ slots (serveAll isValid parse dates_order calls db) = slots db).
  { intros [[Hdom Hev] Hs]. done. }
  induction calls as [|call calls IH] using rev_ind.
  - split; [apply evolved_refl | done].
  - rewrite serveAll_snoc. destruct IH as [IHb IHs].
    destruct (serve_bookings isValid parse dates_order call
                (serveAll isValid parse dates_order calls db))
      as [Hb Hs].
    split; [by eapply evolved_trans | congruence].
Qed.

(** X6: no route writes the [expertId] of a request.  After any sequence of
    calls every stored request was stored at the start or has no [expertId];
    so when no request had one at the start (an empty collection, say), the
    by-expert list never shows a request, whatever was submitted: for every
    well-formed expert id it answers 404, and for no id 200. *)
Theorem X6_calls_never_file_a_request_under_an_expert
    (isValid : string → bool)
    (parse : ExpertPatch.t → list ZodIssue + ExpertPatch.t)
    (dates_order : DB → list string) (calls : list Call) (db : DB) :
  let db' := serveAll isValid parse dates_order calls db in
  (∀ r, r ∈ requests db' → r ∈ requests db ∨ IReschedulingRequest.expertId r = None)
  ∧ ((∀ r, r ∈ requests db → IReschedulingRequest.expertId r = None) →
     ∀ ExpertId,
       res_status (getRescheduleRequestsByExpert isValid ExpertId db').1 ≠ 200
       ∧ (isValid ExpertId = true →
          res_status (getRescheduleRequestsByExpert isValid ExpertId db').1 = 404)).
Proof.
  intros db'. subst db'.
  assert (Hkept : ∀ r, r ∈ requests (serveAll isValid parse dates_order calls db) →
                       r ∈ requests db ∨ IReschedulingRequest.expertId r = None).
  { induction calls as [|call calls IH] using rev_ind; [by left|].
    intros r. rewrite serveAll_snoc. intros Hr.
    apply serve_requests in Hr as [Hr | Hr]; [by apply IH | by right]. }
  split; [exact Hkept|].
  intros Hnone E. apply getRescheduleRequestsByExpert_nothing.
  intros r Hin. destruct (Hkept r Hin) as [Hold | Hno]; [apply Hnone in Hold|]; congruence.
Qed.

(** X7: the plain list [GET /reschedule-request] always answers 200 with the
    stored requests as they are, in their order, and changes nothing: on an
    empty collection the list is empty, where the by-expert list answers 404
    for every well-formed expert id and 200 for none.  After a successful
    [POST /reschedule] it shows the earlier requests followed by the
    submitted one. *)
Theorem X7_plain_list_shows_the_collection (db : DB) :
  getRescheduleRequest db
  = (mkReply 200 (BRequests "Rescheduling requests retrieved successfully" (requests db)),
     db)
  ∧ (requests db = [] →
     (getRescheduleRequest db).1
     = mkReply 200 (BRequests "Rescheduling requests retrieved successfully" [])
     ∧ ∀ isValid ExpertId,
         res_status (getRescheduleRequestsByExpert isValid ExpertId db).1 ≠ 200
         ∧ (isValid ExpertId = true →
            res_status (getRescheduleRequestsByExpert isValid ExpertId db).1 = 404))
  ∧ (∀ isValid body,
       res_status (postReschedule isValid body db).1 = 201 →
       (getRescheduleRequest (postReschedule isValid body db).2).1
       = mkReply 200
           (BRequests "Rescheduling requests retrieved successfully"
              (requests db
               ++ [IReschedulingRequest.mk None
                     (Some (SubmitBody.Current_Booking_id body))
                     (SubmitBody.RequestedDateId body)
                     (SubmitBody.RequestedSlotId body) None]))).
Proof.
  split; [done|]. split.
  - intros Hempty. unfold getRescheduleRequest. rewrite Hempty. split; [done|].
    intros isValid E. apply getRescheduleRequestsByExpert_nothing.
    intros r Hin. rewrite Hempty in Hin. by apply elem_of_nil in Hin.
  - intros isValid body Hcreated. apply postReschedule_created in Hcreated.
    by rewrite (postReschedule_valid _ _ _ Hcreated).
Qed.

(** * The expert routes *)

(** What a lookup by id gives for an id that names no document. *)
Lemma castLookup_None {A} (isValid : string → bool) (m : gmap string A) (id : string) :
  m !! id = None →
  castLookup isValid m id
  = if isValid id then inr None else inl (CastError id "_id").
Proof. intros H. unfold castLookup. by rewrite H. Qed.

Lemma castLookup_Some {A} (isValid : string → bool) (m : gmap string A) (id : string)
    (document : A) :
  m !! id = Some document → castLookup isValid m id = inr (Some document).
Proof. intros H. unfold castLookup. by rewrite H. Qed.

(** X8: deleting a stored expert is answered 204 with an empty body; after
    it [GET /expert/:id] no longer answers 200 for that id (it answers 404,
    the id of a stored expert being a well-formed identifier) and answers as
    before for every other id, and the bookings, requests, dates and slots
    are untouched (the deletion does not cascade). *)
Theorem X8_deleted_expert_is_gone
    (isValid : string → bool) (db : DB) (id : string) (expert : IExpert) :
  experts db !! id = Some expert →
  let deleted := deleteExpert isValid id db in
  deleted.1 = mkReply 204 BNoContent
  ∧ (isValid id = true →
     getExpert isValid id deleted.2
     = (mkReply 404 (BError "Expert not found"), deleted.2))
  ∧ reply_status (getExpert isValid id deleted.2).1 ≠ 200
  ∧ (∀ id', id' ≠ id →
       (getExpert isValid id' deleted.2).1 = (getExpert isValid id' db).1)
  ∧ bookings deleted.2 = bookings db
  ∧ requests deleted.2 = requests db
  ∧ dates deleted.2 = dates db
  ∧ slots deleted.2 = slots db.
Proof.
  intros He deleted. subst deleted. unfold deleteExpert.
  rewrite (castLookup_Some _ _ _ _ He). cbn [fst snd].
  assert (Hgone : experts (set_experts (delete id) db) !! id = None)
    by apply lookup_delete_eq.
  split; [done|]. split; [|split; [|split]].
  - intros Hv. unfold getExpert. by rewrite (castLookup_None _ _ _ Hgone), Hv.
  - unfold getExpert. rewrite (castLookup_None _ _ _ Hgone). by destruct (isValid id).
  - intros id' Hne. unfold getExpert, castLookup. cbn.
    rewrite lookup_delete_ne by congruence.
    by repeat case_match.
  - done.
Qed.

Lemma X8_deleted_expert_is_gone_witness :
  experts db_tagged !! E1 = Some expert1
  ∧ hexObjectId E1 = true
  ∧ (getExpert hexObjectId E1 (deleteExpert hexObjectId E1 db_tagged).2).1
    = mkReply 404 (BError "Expert not found").
Proof.
  split; [reflexivity|]. split; [reflexivity|].
  pose proof (X8_deleted_expert_is_gone hexObjectId db_tagged E1 expert1 eq_refl)
    as (_ & Hgone & _).
  by rewrite (Hgone eq_refl).
Defined.

(** X9: [DELETE /expert/:id] for an id that names no expert changes nothing:
    it is answered 404 when the id is a well-formed identifier and 500 when
    it is not.  So a second deletion of the same id never answers 204 and
    changes nothing, whatever the first one answered; after a successful
    first deletion of a well-formed id it answers 404. *)
Theorem X9_expert_is_deleted_once (isValid : string → bool) (db : DB) (id : string) :
  let once := deleteExpert isValid id db in
  let twice := deleteExpert isValid id once.2 in
  (experts db !! id = None → isValid id = true →
   once = (mkReply 404 (BError "Expert not found"), db))
  ∧ (experts db !! id = None → isValid id = false →
     once = (mkReply 500 (BError (Error_message (CastError id "_id"))), db))
  ∧ twice.2 = once.2
  ∧ reply_status twice.1 ≠ 204
  ∧ (isValid id = true → twice.1 = mkReply 404 (BError "Expert not found")).
Proof.
  intros once twice. subst twice once.
  assert (Hmissing : ∀ db', experts db' !! id = None →
            deleteExpert isValid id db'
            = (if isValid id then mkReply 404 (BError "Expert not found")
               else mkReply 500 (BError (Error_message (CastError id "_id"))), db')).
  { intros db' H. unfold deleteExpert. rewrite (castLookup_None _ _ _ H).
    by destruct (isValid id). }
  assert (Hafter : experts (deleteExpert isValid id db).2 !! id = None).
  { unfold deleteExpert, castLookup.
    destruct (experts db !! id) eqn:He; cbn; [apply lookup_delete_eq|].
    by destruct (isValid id). }
  split; [intros H Hv; by rewrite (Hmissing db H), Hv|].
  split; [intros H Hv; by rewrite (Hmissing db H), Hv|].
  rewrite (Hmissing _ Hafter). cbn.
  split; [done|]. split; [by destruct (isValid id)|]. by intros ->.
Qed.

(** X10: the requests filed under an expert outlive the expert.  After the
    expert is deleted they are still stored and the plain list still shows
    them, while the by-expert list of that id no longer answers 200: it
    answers 404 "Expert not found", the id of a stored expert being a
    well-formed identifier. *)
Theorem X10_requests_outlive_their_expert
    (isValid : string → bool) (db : DB) (ExpertId : string) (expert : IExpert) :
  experts db !! ExpertId = Some expert →
  let db' := (deleteExpert isValid ExpertId db).2 in
  (isValid ExpertId = true →
   getRescheduleRequestsByExpert isValid ExpertId db'
   = (mkResponse 404 (JMessage "Expert not found"), db'))
  ∧ res_status (getRescheduleRequestsByExpert isValid ExpertId db').1 ≠ 200
  ∧ requests db' = requests db
  ∧ (getRescheduleRequest db').1 = (getRescheduleRequest db).1.
Proof.
  intros He db'. subst db'. unfold deleteExpert.
  rewrite (castLookup_Some _ _ _ _ He). cbn [fst snd].
  assert (Hgone : experts (set_experts (delete ExpertId) db) !! ExpertId = None)
    by apply lookup_delete_eq.
  split; [|split; [|done]].
  - intros Hv. by apply getRescheduleRequestsByExpert_unknown.
  - destruct (isValid ExpertId) eqn:Hv.
    + by rewrite (getRescheduleRequestsByExpert_unknown _ _ _ Hgone Hv).
    + by rewrite (getRescheduleRequestsByExpert_malformed _ _ _ Hgone Hv).
Qed.

Lemma X10_requests_outlive_their_expert_witness :
  experts db_tagged !! E1 = Some expert1
  ∧ res_status (getRescheduleRequestsByExpert hexObjectId E1 db_tagged).1 = 200
  ∧ (getRescheduleRequestsByExpert hexObjectId E1 (deleteExpert hexObjectId E1 db_tagged).2).1
    = mkResponse 404 (JMessage "Expert not found").
Proof.
  split; [reflexivity|]. split; [reflexivity|].
  pose proof (X10_requests_outlive_their_expert hexObjectId db_tagged E1 expert1 eq_refl)
    as (Hgone & _).
  by rewrite (Hgone eq_refl).
Defined.

(** X11: [PUT /expert/:id] validates first: a body the schema refuses is
    answered 400 and nothing is looked up or changed.  With parsed data, an
    id that names no expert creates nothing: it is answered 404 when it is a
    well-formed identifier, and 400 with the message of the cast error when
    it is not (the catch block of this route answers 400 to every error).
    For a stored expert the fields present in the data are replaced and the
    absent ones kept, the answer carries the updated expert, [GET
    /expert/:id] then answers the same expert, and no other expert changes. *)
Theorem X11_put_expert_updates_in_place
    (isValid : string → bool)
    (parse : ExpertPatch.t → list ZodIssue + ExpertPatch.t)
    (db : DB) (id : string) (body : ExpertPatch.t) :
  let updated := putExpert isValid parse id body db in
  (∀ errors, parse body = inl errors → updated = (mkReply 400 (BErrors errors), db))
  ∧ (∀ data, parse body = inr data → experts db !! id = None → isValid id = true →
       updated = (mkReply 404 (BError "Expert not found"), db))
  ∧ (∀ data, parse body = inr data → experts db !! id = None → isValid id = false →
       updated = (mkReply 400 (BError (Error_message (CastError id "_id"))), db))
  ∧ (∀ data expert, parse body = inr data → experts db !! id = Some expert →
       let expert' := applyPatch data expert in
       updated.1 = mkReply 200 (BExpert id expert')
       ∧ getExpert isValid id updated.2 = (mkReply 200 (BExpert id expert'), updated.2)
       ∧ (∀ id', id' ≠ id → experts updated.2 !! id' = experts db !! id')
       ∧ (ExpertPatch.username data = None → username expert' = username expert)
       ∧ (ExpertPatch.fullname data = None → fullname expert' = fullname expert)
       ∧ (ExpertPatch.expertise data = None → expertise expert' = expertise expert)
       ∧ (∀ u, ExpertPatch.username data = Some u → username expert' = u)
       ∧ (∀ f, ExpertPatch.fullname data = Some f → fullname expert' = f)
       ∧ (∀ e, ExpertPatch.expertise data = Some e → expertise expert' = e)
       ∧ bookings updated.2 = bookings db
       ∧ requests updated.2 = requests db).
Proof.
  intros updated. subst updated. unfold putExpert.
  split; [|split; [|split]].
  - intros errors ->. done.
  - intros data -> H Hv. by rewrite (castLookup_None _ _ _ H), Hv.
  - intros data -> H Hv. by rewrite (castLookup_None _ _ _ H), Hv.
  - intros data expert -> He. rewrite (castLookup_Some _ _ _ _ He). cbn.
    split; [done|]. split.
    { unfold getExpert. cbn. by rewrite (castLookup_Some _ _ _ _ (lookup_insert_eq _ _ _)). }
    split; [intros id' Hne; by apply lookup_insert_ne|].
    unfold applyPatch. cbn.
    repeat split; try done; try (by intros ->); by intros ? ->.
Qed.

(** * The date routes *)

Lemma find_expertId_dates (stored : list string) (db : DB) (expertid id : string)
    (d : DateDoc) :
  (id, d) ∈ DateModel.find_expertId stored expertid db
  ↔ id ∈ stored ∧ dates db !! id = Some d ∧ date_expertId d = expertid.
Proof.
  unfold DateModel.find_expertId. rewrite list_elem_of_omap. split.
  - intros (id' & Hin & H). destruct (dates db !! id') as [d'|] eqn:Hd; [|done].
    destruct (String.eqb (date_expertId d') expertid) eqn:E; [|done].
    apply String.eqb_eq in E. by simplify_eq.
  - intros (Hin & Hd & <-). exists id. split; [done|].
    by rewrite Hd, String.eqb_refl.
Qed.

(** The answer lists each stored date at most once. *)
Lemma find_expertId_NoDup (stored : list string) (db : DB) (expertid : string) :
  NoDup stored → NoDup (DateModel.find_expertId stored expertid db).*1.
Proof.
  unfold DateModel.find_expertId. induction 1 as [|id stored Hid Hnd IH]; cbn.
  - constructor.
  - destruct (dates db !! id) as [d|] eqn:Hd; [|done].
    destruct (String.eqb (date_expertId d) expertid); [|done].
    cbn. constructor; [|done].
    intros Hin. apply list_elem_of_fmap in Hin as ([id' d'] & Heq & Hin). cbn in Heq.
    subst id'. apply (find_expertId_dates stored db expertid id d') in Hin as [Hin _].
    done.
Qed.

(** X12: [GET /date/:expertid] never answers 404: the test [!dateEntry] is
    made on an array.  For a well-formed expert id its answer is 200 with
    exactly the stored dates of that expert, each once, in the order in which
    they are stored, and 200 with an empty list when no stored date is of
    that expert; for an id that is no well-formed identifier the query throws
    and the answer is 500.  The database is left as it was. *)
Theorem X12_dates_of_an_expert_are_never_not_found
    (isValid : string → bool) (stored : list string) (db : DB) (expertid : string) :
  enumerates stored (dates db) →
  let answer := getDatesByExpert isValid stored expertid db in
  answer.2 = db
  ∧ reply_status answer.1 ≠ 404
  ∧ (isValid expertid = false →
     answer.1 = mkReply 500 (BError (Error_message (CastError expertid "expertId"))))
  ∧ (isValid expertid = true →
     ∃ dateEntry,
       answer.1 = mkReply 200 (BDates dateEntry)
       ∧ (∀ id d, (id, d) ∈ dateEntry
                  ↔ dates db !! id = Some d ∧ date_expertId d = expertid)
       ∧ NoDup dateEntry.*1
       ∧ sublist dateEntry.*1 stored
       ∧ ((∀ id d, dates db !! id = Some d → date_expertId d ≠ expertid) →
          dateEntry = [])).
Proof.
  intros [Hnd Hstored] answer. subst answer.
  unfold getDatesByExpert, DateModel.find_expertId_cast.
  destruct (isValid expertid); cbn; [|done].
  split; [done|]. split; [done|]. split; [done|]. intros _.
  exists (DateModel.find_expertId stored expertid db).
  assert (Hmem : ∀ id d, (id, d) ∈ DateModel.find_expertId stored expertid db
                         ↔ dates db !! id = Some d ∧ date_expertId d = expertid).
  { intros id d. rewrite find_expertId_dates. split; [tauto|].
    intros [Hd He]. split; [|done]. apply Hstored. by eexists. }
  split; [done|]. split; [exact Hmem|]. split; [by apply find_expertId_NoDup|]. split.
  - unfold DateModel.find_expertId. clear. induction stored as [|id stored IH]; cbn; [done|].
    destruct (dates db !! id) as [d|]; [|by apply sublist_cons].
    destruct (String.eqb (date_expertId d) expertid);
      [by apply sublist_skip | by apply sublist_cons].
  - intros Hnone.
    destruct (DateModel.find_expertId stored expertid db) as [|[id d] l] eqn:E; [done|].
    destruct (proj1 (Hmem id d)) as [Hd He]; [constructor|].
    by destruct (Hnone id d Hd).
Qed.

(** The dates of the sample calendar, in the order they are stored. *)
Lemma dates_of_the_sample_calendar : enumerates [D1; D2] (dates db_calendar).
Proof.
  split.
  - repeat constructor; rewrite ?elem_of_cons, ?elem_of_nil; intros H;
      repeat destruct H as [H | H]; try done; discriminate.
  - intros id. rewrite <- elem_of_dom. unfold db_calendar, dates.
    rewrite dom_insert_L, dom_singleton_L, elem_of_union, !elem_of_singleton.
    rewrite !elem_of_cons, elem_of_nil. intuition.
Qed.

Lemma X12_dates_of_an_expert_are_never_not_found_witness :
  enumerates [D1; D2] (dates db_calendar)
  ∧ (getDatesByExpert hexObjectId [D1; D2] E3 db_calendar).1 = mkReply 200 (BDates [])
  ∧ reply_status (getDatesByExpert hexObjectId [D1; D2] "nope" db_calendar).1 ≠ 404.
Proof.
  split; [exact dates_of_the_sample_calendar|]. split; [reflexivity|].
  apply (X12_dates_of_an_expert_are_never_not_found hexObjectId [D1; D2]
           db_calendar "nope" dates_of_the_sample_calendar).
Defined.

Lemma calendarSlots_spec (db : DB) (slotsId : list string) (cs : CalendarSlot.t) :
  cs ∈ calendarSlots db slotsId
  ↔ ∃ slot,
      CalendarSlot.id cs ∈ slotsId
      ∧ slots db !! CalendarSlot.id cs = Some slot
      ∧ cs = CalendarSlot.mk (CalendarSlot.id cs) (slot_availability slot) (timing slot)
               (period slot) (slot_expertId slot) (planId slot).
Proof.
  unfold calendarSlots. rewrite list_elem_of_omap. split.
  - intros (id & Hin & Hcs). destruct (slots db !! id) as [slot|] eqn:Hs; [|done].
    cbn in Hcs. injection Hcs as <-. cbn. by exists slot.
  - intros (slot & Hin & Hs & Hcs). exists (CalendarSlot.id cs).
    split; [done|]. rewrite Hs. cbn. by rewrite <- Hcs.
Qed.

(** X13: [POST /calendar] looks the plan up first and the plan's expert
    second.  A plan id that names no plan is answered 404 "Plan not found"
    when it is a well-formed identifier and 500 "Server error" when it is
    not; a plan whose expert is gone is answered 404 "Expert not found".
    Otherwise the answer is 200 with the plan, the expert, and exactly the
    stored dates of the plan's expert.  Under each date come the stored
    slots named in its [slotsId]: an id naming no stored slot gives no
    entry, and the slots are not filtered by the plan, so a slot of another
    plan is listed with its own [planId].  Nothing is changed. *)
Theorem X13_calendar_lists_the_dates_of_the_plans_expert
    (isValid : string → bool) (plans : gmap string Plan) (stored : list string)
    (plan_id : string) (db : DB) :
  enumerates stored (dates db) →
  let answer := postCalendar isValid plans stored plan_id db in
  answer.2 = db
  ∧ (plans !! plan_id = None → isValid plan_id = true →
     answer.1 = mkReply 404 (BMessage "Plan not found"))
  ∧ (plans !! plan_id = None → isValid plan_id = false →
     answer.1
     = mkReply 500 (BServerError "Server error" (Error_message (CastError plan_id "_id"))))
  ∧ (∀ plan, plans !! plan_id = Some plan →
       experts db !! plan_expertId plan = None →
       answer.1 = mkReply 404 (BMessage "Expert not found"))
  ∧ (∀ plan expert, plans !! plan_id = Some plan →
       experts db !! plan_expertId plan = Some expert →
       ∃ responseDates,
         answer.1
         = mkReply 200
             (BCalendar plan_id plan
                (CalendarExpert.mk (plan_expertId plan) (fullname expert)
                   (expertise expert))
                responseDates)
         ∧ (∀ cd, cd ∈ responseDates
                  ↔ ∃ id d, dates db !! id = Some d
                            ∧ date_expertId d = plan_expertId plan
                            ∧ cd = CalendarDate.mk id (date d) (date_availability d)
                                     (calendarSlots db (slotsId d)))
         ∧ (∀ id d sid slot,
              dates db !! id = Some d →
              date_expertId d = plan_expertId plan →
              sid ∈ slotsId d →
              slots db !! sid = Some slot →
              ∃ cd, cd ∈ responseDates
                    ∧ CalendarDate.id cd = id
                    ∧ CalendarSlot.mk sid (slot_availability slot) (timing slot)
                        (period slot) (slot_expertId slot) (planId slot)
                      ∈ CalendarDate.slots cd)
         ∧ (∀ cd cs, cd ∈ responseDates → cs ∈ CalendarDate.slots cd →
              is_Some (slots db !! CalendarSlot.id cs))).
Proof.
  intros [Hnd Hstored] answer. subst answer. unfold postCalendar.
  split; [unfold castLookup; by repeat case_match|].
  split; [intros H Hv; by rewrite (castLookup_None _ _ _ H), Hv|].
  split; [intros H Hv; by rewrite (castLookup_None _ _ _ H), Hv|].
  split; [intros plan H He; by rewrite (castLookup_Some _ _ _ _ H), He|].
  intros plan expert H He. rewrite (castLookup_Some _ _ _ _ H), He. cbn.
  exists (map (calendarDate db)
            (DateModel.find_expertId stored (plan_expertId plan) db)).
  split; [done|].
  assert (Hdates : ∀ cd,
            cd ∈ map (calendarDate db)
                   (DateModel.find_expertId stored (plan_expertId plan) db)
            ↔ ∃ id d, dates db !! id = Some d
                      ∧ date_expertId d = plan_expertId plan
                      ∧ cd = CalendarDate.mk id (date d) (date_availability d)
                               (calendarSlots db (slotsId d))).
  { intros cd. change (map (calendarDate db) ?l) with (calendarDate db <$> l).
    rewrite list_elem_of_fmap. split.
    - intros ([id d] & -> & Hin). apply find_expertId_dates in Hin as (_ & Hd & Hx).
      by exists id, d.
    - intros (id & d & Hd & Hx & ->). exists (id, d).
      split; [done|]. apply find_expertId_dates.
      split; [|done]. apply Hstored. by eexists. }
  split; [exact Hdates|]. split.
  - intros id d sid slot Hd Hx Hsid Hslot.
    exists (CalendarDate.mk id (date d) (date_availability d) (calendarSlots db (slotsId d))).
    split; [apply Hdates; by exists id, d|]. split; [done|]. cbn.
    apply calendarSlots_spec. exists slot. done.
  - intros cd cs Hcd Hcs. apply Hdates in Hcd as (id & d & _ & _ & ->). cbn in Hcs.
    apply calendarSlots_spec in Hcs as (slot & _ & Hs & _). by eexists.
Qed.

Lemma X13_calendar_lists_the_dates_of_the_plans_expert_witness :
  enumerates [D1; D2] (dates db_calendar)
  ∧ (postCalendar hexObjectId plans_sample [D1; D2] P1 db_calendar).2 = db_calendar.
Proof.
  split; [exact dates_of_the_sample_calendar|].
  apply (X13_calendar_lists_the_dates_of_the_plans_expert hexObjectId plans_sample
           [D1; D2] P1 db_calendar dates_of_the_sample_calendar).
Defined.

(** A slot of plan [P2] in the calendar of plan [P1], and no entry for the
    slot id [S9] that names no slot. *)
Example calendar_on_the_samples :
  ∃ expert dates,
    (postCalendar hexObjectId plans_sample [D1; D2] P1 db_calendar).1
    = mkReply 200 (BCalendar P1 plan_a expert dates)
    ∧ (CalendarSlot.planId <$> (dates ≫= CalendarDate.slots)) = [P1; P2]
    ∧ (CalendarSlot.id <$> (dates ≫= CalendarDate.slots)) = [S1; S5].
Proof. eexists _, _. split; [by vm_compute|]. by vm_compute. Qed.

(** X14: deleting a date that requests ask for leaves those requests stored
    (the deletion does not cascade).  The by-expert list keeps all its
    entries, with the same bookings, slots and expert name; the entries of
    the requests that ask for the deleted date now carry null in place of
    the date. *)
Theorem X14_deleted_date_shows_as_null
    (isValid : string → bool) (db : DB) (date_Id : string) (dateEntry : DateDoc) :
  dates db !! date_Id = Some dateEntry →
  let deleted := deleteDate isValid date_Id db in
  deleted.1 = mkReply 204 BNoContent
  ∧ requests deleted.2 = requests db
  ∧ (∀ ExpertId,
       res_status (getRescheduleRequestsByExpert isValid ExpertId deleted.2).1
       = res_status (getRescheduleRequestsByExpert isValid ExpertId db).1)
  ∧ (∀ ExpertId expert,
       experts db !! ExpertId = Some expert →
       let selected :=
         filter (λ r, IReschedulingRequest.expertId r = Some ExpertId) (requests db) in
       selected ≠ [] →
       (getRescheduleRequestsByExpert isValid ExpertId deleted.2).1
       = mkResponse 200
           (JMessageList "Rescheduling requests retrieved successfully"
              (map (λ r,
                      mkFormatted
                        (currentBookingId (formatRequest db expert r))
                        (if String.eqb (IReschedulingRequest.RequestedDateId r) date_Id
                         then None
                         else requestedDateId (formatRequest db expert r))
                        (requestedSlotId (formatRequest db expert r))
                        (expertName (formatRequest db expert r)))
                 selected))).
Proof.
  intros Hd deleted. subst deleted. unfold deleteDate.
  rewrite (castLookup_Some _ _ _ _ Hd). cbn [fst snd].
  set (db' := set_dates (delete date_Id) db).
  split; [done|]. split; [done|]. split.
  - intros E. destruct (experts db !! E) as [e|] eqn:He.
    + destruct (List.filter (ReschedulingRequest.forExpert E) (requests db)) eqn:Hl.
      * rewrite (getRescheduleRequestsByExpert_none _ db' _ e He Hl).
        by rewrite (getRescheduleRequestsByExpert_none _ db _ e He Hl).
      * rewrite (getRescheduleRequestsByExpert_some _ db' _ e He)
          by (cbn; rewrite Hl; discriminate).
        by rewrite (getRescheduleRequestsByExpert_some _ db _ e He)
          by (rewrite Hl; discriminate).
    + destruct (isValid E) eqn:Hv.
      * rewrite (getRescheduleRequestsByExpert_unknown _ db' _ He Hv).
        by rewrite (getRescheduleRequestsByExpert_unknown _ db _ He Hv).
      * rewrite (getRescheduleRequestsByExpert_malformed _ db' _ He Hv).
        by rewrite (getRescheduleRequestsByExpert_malformed _ db _ He Hv).
  - intros E e He Hsel.
    rewrite <- find_expertId_spec in *.
    rewrite (getRescheduleRequestsByExpert_some _ db' _ e He) by done. cbn.
    do 2 f_equal. apply map_ext. intros r.
    unfold formatRequest, format, populate. cbn. f_equal.
    destruct (String.eqb (IReschedulingRequest.RequestedDateId r) date_Id) eqn:E'.
    + apply String.eqb_eq in E'. rewrite E'. apply lookup_delete_eq.
    + apply String.eqb_neq in E'. by apply lookup_delete_ne.
Qed.

Lemma X14_deleted_date_shows_as_null_witness :
  dates db_calendar !! D1 = Some date1
  ∧ requestedDateId <$> match res_json
                                (getRescheduleRequestsByExpert hexObjectId E1 db_calendar).1 with
                        | JMessageList _ l => l
                        | _ => []
                        end = [Some date1]
  ∧ requests (deleteDate hexObjectId D1 db_calendar).2 = requests db_calendar.
Proof.
  split; [reflexivity|]. split; [reflexivity|].
  apply (X14_deleted_date_shows_as_null hexObjectId db_calendar D1 date1 eq_refl).
Defined.

(** * Admin signup and login *)

Section AdminProperties.
Import AdminRoutes.

Variable isEmail : string → bool.
Variable bcrypt_hash : string → nat → string → string.
Variable bcrypt_compare : string → string → bool.
Variable jwt_sign : string → string → string → string.
Variable JWT_SECRET : string.

Implicit Types (admins : list (string * IAdmin)) (e : string).

Lemma findOne_email_None e admins :
  findOne_email e admins = None ↔ e ∉ (λ a, email a.2) <$> admins.
Proof.
  induction admins as [|a admins IH]; simpl.
  - split; [intros _; apply not_elem_of_nil | done].
  - rewrite not_elem_of_cons. destruct (String.eqb (email a.2) e) eqn:E.
    + apply String.eqb_eq in E. split; [done|]. intros [Hne _]. by destruct Hne.
    + apply String.eqb_neq in E. rewrite IH. split; [by split | by intros [_ ?]].
Qed.

Lemma findOne_email_Some e admins a :
  findOne_email e admins = Some a → a ∈ admins ∧ email a.2 = e.
Proof.
  induction admins as [|a' admins IH]; simpl; [done|].
  destruct (String.eqb (email a'.2) e) eqn:E.
  - apply String.eqb_eq in E. intros [= <-]. split; [left | done].
  - intros H. destruct (IH H) as [Hin He]. split; [by right | done].
Qed.

(** The first admin with an email, when nobody before has it. *)
Lemma findOne_email_app_new e admins a :
  findOne_email e admins = None → email a.2 = e →
  findOne_email e (admins ++ [a]) = Some a.
Proof.
  intros Hnone He. induction admins as [|a' admins IH]; simpl in *.
  - rewrite He. by rewrite String.eqb_refl.
  - destruct (String.eqb (email a'.2) e); [done|]. by apply IH.
Qed.

Lemma SignupSchemaZod_nil (b : SignupBody.t) :
  SignupSchemaZod isEmail b = []
  ↔ (2 ≤ String.length (SignupBody.name b))%nat
    ∧ isEmail (SignupBody.email b) = true
    ∧ (6 ≤ String.length (SignupBody.password b))%nat.
Proof.
  unfold SignupSchemaZod.
  destruct (Nat.leb_spec 2 (String.length (SignupBody.name b))),
    (isEmail (SignupBody.email b)),
    (Nat.leb_spec 6 (String.length (SignupBody.password b)));
    simpl; split; try discriminate; try done; intros (? & ? & ?); try done; lia.
Qed.

Lemma LoginSchemaZod_nil (b : LoginBody.t) :
  LoginSchemaZod isEmail b = []
  ↔ isEmail (LoginBody.email b) = true ∧ (6 ≤ String.length (LoginBody.password b))%nat.
Proof.
  unfold LoginSchemaZod.
  destruct (isEmail (LoginBody.email b)),
    (Nat.leb_spec 6 (String.length (LoginBody.password b)));
    simpl; split; try discriminate; try done; intros (? & ?); try done; lia.
Qed.

(** What [POST /signup] answers and stores. *)
Lemma signup_outcome
    (_id salt : string) (b : SignupBody.t) admins :
  let out := signup isEmail bcrypt_hash _id salt b admins in
  let admin :=
    mkAdmin (SignupBody.name b) (SignupBody.email b)
      (bcrypt_hash (SignupBody.password b) 10 salt) in
  (status out.1 = 201
   ↔ (2 ≤ String.length (SignupBody.name b))%nat
     ∧ isEmail (SignupBody.email b) = true
     ∧ (6 ≤ String.length (SignupBody.password b))%nat
     ∧ SignupBody.email b ∉ (λ a, email a.2) <$> admins)
  ∧ (status out.1 = 201 →
     out = (mkReply 201 (Created "Admin created successfully" _id admin),
            admins ++ [(_id, admin)]))
  ∧ (status out.1 ≠ 201 → status out.1 = 400 ∧ out.2 = admins).
Proof.
  intros out admin. subst out admin. unfold signup.
  destruct (SignupSchemaZod isEmail b) as [|issue rest] eqn:Hz.
  - apply SignupSchemaZod_nil in Hz as (Hn & He & Hp).
    destruct (findOne_email (SignupBody.email b) admins) as [a|] eqn:Hf; cbn.
    + split; [|split; [discriminate | done]].
      split; [discriminate|]. intros (_ & _ & _ & Hnew).
      apply findOne_email_None in Hnew. congruence.
    + apply findOne_email_None in Hf. repeat split; try done.
  - cbn. split; [|split; [discriminate | done]].
    split; [discriminate|]. intros (Hn & He & Hp & _).
    assert (SignupSchemaZod isEmail b = []) by (by apply SignupSchemaZod_nil).
    congruence.
Qed.

(** X15: [POST /signup] succeeds exactly when the name has at least 2
    characters, the email is one, the password has at least 6 characters and
    no stored admin has the email.  Then one admin is added, under the new
    id, whose password field is the bcrypt hash (10 rounds) of the password
    sent, and the answer 201 carries it.  Every other call is answered 400
    and stores nothing. *)
Theorem X15_signup_stores_a_validated_admin_with_a_hash
    (_id salt : string) (b : SignupBody.t) admins :
  let out := signup isEmail bcrypt_hash _id salt b admins in
  let admin :=
    mkAdmin (SignupBody.name b) (SignupBody.email b)
      (bcrypt_hash (SignupBody.password b) 10 salt) in
  (status out.1 = 201
   ↔ (2 ≤ String.length (SignupBody.name b))%nat
     ∧ isEmail (SignupBody.email b) = true
     ∧ (6 ≤ String.length (SignupBody.password b))%nat
     ∧ SignupBody.email b ∉ (λ a, email a.2) <$> admins)
  ∧ (status out.1 = 201 →
     out = (mkReply 201 (Created "Admin created successfully" _id admin),
            admins ++ [(_id, admin)]))
  ∧ (status out.1 ≠ 201 → status out.1 = 400 ∧ out.2 = admins).
Proof. apply signup_outcome. Qed.

(** X16: [POST /signup] never gives two admins one email: a well-formed
    signup with an email that a stored admin has is answered 400 "Admin
    already exists" and stores nothing, and if the stored emails are
    pairwise distinct they are so after every signup call. *)
Theorem X16_signup_keeps_the_emails_distinct
    (_id salt : string) (b : SignupBody.t) admins :
  let out := signup isEmail bcrypt_hash _id salt b admins in
  (SignupSchemaZod isEmail b = [] →
   SignupBody.email b ∈ (λ a, email a.2) <$> admins →
   out = (mkReply 400 (Message "Admin already exists"), admins))
  ∧ (NoDup ((λ a, email a.2) <$> admins) → NoDup ((λ a, email a.2) <$> out.2)).
Proof.
  intros out. subst out. unfold signup. split.
  - intros -> Hin.
    destruct (findOne_email (SignupBody.email b) admins) eqn:Hf; [done|].
    apply findOne_email_None in Hf. done.
  - intros Hnd. destruct (SignupSchemaZod isEmail b); [|done].
    destruct (findOne_email (SignupBody.email b) admins) eqn:Hf; [done|].
    apply findOne_email_None in Hf. cbn.
    rewrite fmap_app. apply NoDup_app. split; [done|]. split.
    + intros x Hx Hx'. cbn in Hx'. apply list_elem_of_singleton in Hx'. by subst.
    + cbn. apply NoDup_singleton.
Qed.

(** X17: an admin who has signed up can log in.  After a signup answered
    201, a login with the same email and password is answered 200 with the
    token signed for the id of the new admin, provided bcrypt accepts the
    password against the hash it made of it. *)
Theorem X17_login_after_signup
    (_id salt : string) (b : SignupBody.t) admins :
  let out := signup isEmail bcrypt_hash _id salt b admins in
  status out.1 = 201 →
  bcrypt_compare (SignupBody.password b)
    (bcrypt_hash (SignupBody.password b) 10 salt) = true →
  login isEmail bcrypt_compare jwt_sign JWT_SECRET
    (LoginBody.mk (SignupBody.email b) (SignupBody.password b)) out.2
  = (mkReply 200 (Token "Login successful" (jwt_sign _id JWT_SECRET "1h")), out.2).
Proof.
  intros out Hcreated Hbcrypt.
  destruct (signup_outcome _id salt b admins)
    as (Hiff & Hout & _).
  fold out in Hiff, Hout. apply Hiff in Hcreated as Hvalid.
  destruct Hvalid as (_ & He & Hp & Hnew).
  rewrite (Hout Hcreated). cbn [fst snd]. unfold login.
  assert (Hz : LoginSchemaZod isEmail
                 (LoginBody.mk (SignupBody.email b) (SignupBody.password b)) = [])
    by (by apply LoginSchemaZod_nil).
  rewrite Hz. cbn.
  rewrite (findOne_email_app_new (SignupBody.email b) admins
             (_id, mkAdmin (SignupBody.name b) (SignupBody.email b)
                     (bcrypt_hash (SignupBody.password b) 10 salt)))
    by (try apply findOne_email_None; done).
  cbn. by rewrite Hbcrypt.
Qed.

(** X18: [POST /login] never changes the admins.  A well-formed login that
    fails gets the one answer 400 "Invalid email or password", whether no
    admin has the email or the password is wrong; and a token is issued
    only for the first stored admin with that email, signed for its id,
    when bcrypt accepts the password against its stored hash. *)
Theorem X18_login_fails_in_one_way (b : LoginBody.t) admins :
  let out := login isEmail bcrypt_compare jwt_sign JWT_SECRET b admins in
  out.2 = admins
  ∧ (LoginSchemaZod isEmail b = [] → status out.1 ≠ 200 →
     out.1 = mkReply 400 (Message "Invalid email or password"))
  ∧ (status out.1 = 200 →
     ∃ id admin,
       findOne_email (LoginBody.email b) admins = Some (id, admin)
       ∧ (id, admin) ∈ admins
       ∧ email admin = LoginBody.email b
       ∧ bcrypt_compare (LoginBody.password b) (password admin) = true
       ∧ out.1 = mkReply 200 (Token "Login successful" (jwt_sign id JWT_SECRET "1h")))
  ∧ (status out.1 = 200 ∨ status out.1 = 400).
Proof.
  intros out. subst out. unfold login.
  destruct (LoginSchemaZod isEmail b) as [|issue rest];
    [|cbn; split; [done|]; split; [done|]; split; [done | by right]].
  destruct (findOne_email (LoginBody.email b) admins) as [[id admin]|] eqn:Hf;
    [|cbn; split; [done|]; split; [done|]; split; [done | by right]].
  apply findOne_email_Some in Hf as Hin. destruct Hin as [Hin He]. cbn in He.
  destruct (bcrypt_compare (LoginBody.password b) (password (id, admin).2)) eqn:Hc;
    cbn in *; [|split; [done|]; split; [done|]; split; [done | by right]].
  split; [done|]. split; [done|]. split; [|by left].
  intros _. exists id, admin. done.
Qed.

End AdminProperties.

Lemma X17_login_after_signup_witness :
  AdminRoutes.status
    (AdminRoutes.signup sample_isEmail sample_hash "a1" "salt" signup_asha []).1 = 201
  ∧ sample_compare "s3cret!" (sample_hash "s3cret!" 10 "salt") = true
  ∧ AdminRoutes.login sample_isEmail sample_compare sample_sign "key" login_asha
      (AdminRoutes.signup sample_isEmail sample_hash "a1" "salt" signup_asha []).2
    = (AdminRoutes.mkReply 200 (AdminRoutes.Token "Login successful" "jwt.a1"),
       (AdminRoutes.signup sample_isEmail sample_hash "a1" "salt" signup_asha []).2).
Proof.
  split; [reflexivity|]. split; [reflexivity|].
  apply (X17_login_after_signup sample_isEmail sample_hash sample_compare sample_sign
           "key" "a1" "salt" signup_asha [] eq_refl eq_refl).
Defined.
